(** * Air-quality dashboard: station selection and reading aggregation

    A shallow embedding of [src/components/AirQualityIndex.jsx].

    JavaScript numbers are modelled by exact arithmetic: rationals [Q] in the
    aggregation step (only [+], [/] and [Math.round] occur there) and real
    numbers [R] in the distance calculator (which needs [Math.sin],
    [Math.cos], [Math.sqrt] and [Math.atan2]).  Rounding error, [NaN] and
    the infinities are outside that model.

    The aggregation step is given a second time over IEEE 754 doubles
    ([Binary64], [Aggregator64]), with the rounding of every sum and
    quotient, overflow and [NaN]: the statements about the averages as the
    code computes them are made there. *)

From Stdlib Require Import Ascii String List ZArith QArith Qround Qabs SpecFloat.
From Stdlib Require Import Reals Lqa Lra Lia Bool Permutation Sorted.
Import ListNotations.

Set Implicit Arguments.

(** ** Exceptions and promises *)

(** What a JavaScript computation can throw here: a [TypeError] from a
    property access on [undefined], or the error axios rejects with, of which
    the code only reads [err.response?.data?.message]. *)
Inductive exn : Type :=
| TypeError
| AxiosError (message : option string).

(** A computation that returns or throws; for an [async] function, a promise
    that resolves or rejects. *)
Inductive result (A : Type) : Type :=
| Ok (a : A)
| Throw (e : exn).
Arguments Ok {A} a.
Arguments Throw {A} e.

Definition bind {A B} (m : result A) (k : A -> result B) : result B :=
  match m with
  | Ok a => k a
  | Throw e => Throw e
  end.

Notation "x <- m ;; k" := (bind m (fun x => k))
  (at level 61, m at next level, right associativity).

(** The body of a JSON response where the code expects an array:
    [Falsy] is [null], [undefined] or the empty string; [NotArray] is any
    other value that is not an array (an object, or the text of a body that
    did not parse), on which [.length === 0] is false and [.map] is not a
    function. *)
Inductive payload (A : Type) : Type :=
| Falsy
| Items (items : list A)
| NotArray.
Arguments Falsy {A}.
Arguments Items {A} items.
Arguments NotArray {A}.

(** ** Distance calculator *)

Module Distance.

Local Open Scope R_scope.

(** [Math.atan2(y, x)]: the angle of the point [(x, y)], in (-PI, PI]. *)
Definition Math_atan2 (y x : R) : R :=
  match total_order_T x 0 with
  | inleft (left _) =>
      if Rle_dec 0 y then atan (y / x) + PI else atan (y / x) - PI
  | inleft (right _) =>
      match total_order_T y 0 with
      | inleft (left _) => - (PI / 2)
      | inleft (right _) => 0
      | inright _ => PI / 2
      end
  | inright _ => atan (y / x)
  end.

(** [Math.sqrt] is [sqrt]; on a negative argument JavaScript gives [NaN]
    where [sqrt] gives [0]. *)
Definition calculateDistance (lat1 lon1 lat2 lon2 : R) : R :=
  let R_earth := 6371 in
  let dLat := (lat2 - lat1) * PI / 180 in
  let dLon := (lon2 - lon1) * PI / 180 in
  let a :=
    sin (dLat / 2) * sin (dLat / 2) +
    cos (lat1 * PI / 180) * cos (lat2 * PI / 180) *
    sin (dLon / 2) * sin (dLon / 2) in
  let c := 2 * Math_atan2 (sqrt a) (sqrt (1 - a)) in
  R_earth * c.

End Distance.

(** ** Geocoder *)

Module Geocoder.

Record LatLng := { lat : R; lng : R }.

(** An entry of the select box.  [value = None] is [value: null];
    [isDisabled = false] also stands for an entry without that property. *)
Record SelectOption := {
  label : string;
  value : option LatLng;
  isDisabled : bool
}.

(** An element of the geocoding response. *)
Record Place := {
  item_lat : string;
  item_lon : string;
  display_name : string
}.

Definition no_locations : SelectOption :=
  {| label := "No locations found"; value := None; isDisabled := true |}.

Definition error_loading : SelectOption :=
  {| label := "Error loading locations"; value := None; isDisabled := true |}.

(** [!inputValue] on a string *)
Definition is_empty (s : string) : bool :=
  match s with
  | EmptyString => true
  | String _ _ => false
  end.

Section Search.

(** The built-in [parseFloat]. *)
Variable parseFloat : string -> R.

(** The geocoding service: what [axios.get] of the search URL for a query
    settles to, [response.data] when it resolves. *)
Variable search : string -> result (payload Place).

(** The [try] block of [loadOptions]. *)
Definition loadOptions_try (inputValue : string) : result (list SelectOption) :=
  data <- search inputValue ;;
  match data with
  | Falsy => Ok [no_locations]
  | Items [] => Ok [no_locations]
  | Items items =>
      Ok (firstn 5 (map (fun item =>
            {| label := display_name item;
               value := Some {| lat := parseFloat (item_lat item);
                                lng := parseFloat (item_lon item) |};
               isDisabled := false |}) items))
  | NotArray => Throw TypeError
  end.

(** [loadOptions]: the queries sent to the geocoding service, and what the
    returned promise settles to. *)
Definition loadOptions (inputValue : string)
    : list string * result (list SelectOption) :=
  if is_empty inputValue then ([], Ok [])
  else
    ([inputValue],
     match loadOptions_try inputValue with
     | Ok options => Ok options
     | Throw _ => Ok [error_loading]
     end).

End Search.

(** A query of white space only (the empty query included). *)
Fixpoint whitespace_only (s : string) : bool :=
  match s with
  | EmptyString => true
  | String c rest =>
      (Ascii.eqb c " "%char || Ascii.eqb c "009"%char
       || Ascii.eqb c "010"%char || Ascii.eqb c "013"%char)%bool
      && whitespace_only rest
  end.

End Geocoder.

(** ** Station selector *)

Module Selector.

Local Open Scope R_scope.

(** A station of the bounds response. *)
Record StationSummary := {
  uid : Z;
  lat : R;
  lon : R;
  aqi : string
}.

(** [{...station, distance}] *)
Record RankedStation := {
  station : StationSummary;
  distance : R
}.

Section Sort.

Variable A : Type.

(** The comparator: negative when its first argument sorts first. *)
Variable comparefn : A -> A -> R.

(** Puts [x], which came before every element of [l], into the sorted [l]:
    after the elements that compare below it, before the others. *)
Fixpoint insert (x : A) (l : list A) : list A :=
  match l with
  | [] => [x]
  | y :: rest =>
      if Rlt_dec (comparefn y x) 0 then y :: insert x rest
      else x :: y :: rest
  end.

(** [Array.prototype.sort(comparefn)], which ECMAScript requires to be
    stable: the elements in the order of [comparefn], those that compare
    equal in their original order. *)
Definition sort (l : list A) : list A := fold_right insert [] l.

End Sort.

Section ByKey.

Variable A : Type.
Variable key : A -> R.

(** The comparator [(a, b) => a.key - b.key]. *)
Definition by_key (a b : A) : R := key a - key b.

Definition key_le (a b : A) : Prop := key a <= key b.

(** The elements of [l] whose key is [d], in the order of [l]. *)
Definition with_key (d : R) (l : list A) : list A :=
  filter (fun s => if Req_dec_T (key s) d then true else false) l.

End ByKey.

(** [Array.prototype.slice(0, n)] *)
Definition slice0 {A} (n : nat) (l : list A) : list A := firstn n l.

Definition withDistance (origin : Geocoder.LatLng) (s : StationSummary) : RankedStation :=
  {| station := s;
     distance := Distance.calculateDistance
                   (Geocoder.lat origin) (Geocoder.lng origin) (lat s) (lon s) |}.

(** The stations of the bounds response, each with its distance, sorted by
    [(a, b) => a.distance - b.distance]. *)
Definition rankedStations (origin : Geocoder.LatLng) (data : list StationSummary)
    : list RankedStation :=
  sort (by_key distance) (map (withDistance origin) data).

(** The constant [stations] of [fetchAQI]: the closest 3. *)
Definition closestStations (origin : Geocoder.LatLng) (data : list StationSummary)
    : list RankedStation :=
  slice0 3 (rankedStations origin data).

Definition distance_le (a b : RankedStation) : Prop := distance a <= distance b.

(** The elements of [l] at distance [d], in the order of [l]. *)
Definition at_distance (d : R) (l : list RankedStation) : list RankedStation :=
  with_key distance d l.

End Selector.


(** ** The feed payload *)

Module Feed.

(** One entry of [iaqi], as in [{"v": 12}]. *)
Record Reading := { v : Q }.

(** [iaqi]: every pollutant is optional. *)
Record Iaqi := {
  pm25 : option Reading;
  pm10 : option Reading;
  o3 : option Reading;
  no2 : option Reading;
  so2 : option Reading;
  co : option Reading
}.

(** One day of a pollutant's forecast. *)
Record DayEntry := { day : string; avg : Q }.

(** [forecast]: [daily] is an object from pollutant names to arrays of days,
    kept as the list of its properties in the order of [Object.keys]. *)
Record Forecast := { daily : option (list (string * list DayEntry)) }.

(** The payload [response.data.data] of the feed API for one station. *)
Record StationDetail := {
  aqi : Q;
  iaqi : Iaqi;
  time_iso : string;
  city_name : string;
  forecast : option Forecast
}.

End Feed.

(** ** Reading aggregator *)

Module Aggregator.

Import Feed.

Local Open Scope Q_scope.

Record Pollutants := {
  p_pm25 : option Q;
  p_pm10 : option Q;
  p_o3 : option Q;
  p_no2 : option Q;
  p_so2 : option Q;
  p_co : option Q
}.

Record StationEntry := {
  e_name : string;
  e_aqi : Q;
  e_distance : R
}.

(** The object [processStationData] returns.  [None] in [c_aqi] and in
    [pollutants] stands for [null]. *)
Record CompositeReading := {
  c_aqi : option Q;
  pollutants : Pollutants;
  time : string;
  stations : list StationEntry
}.

(** [Math.round]: the integer nearest to [x], ties towards +infinity. *)
Definition Math_round (x : Q) : Q := inject_Z (Qfloor (x + (1 # 2))).

(** [values.filter(v => v !== undefined)]: [None] in [values] stands for
    [undefined]. *)
Fixpoint validValues (values : list (option Q)) : list Q :=
  match values with
  | [] => []
  | None :: rest => validValues rest
  | Some x :: rest => x :: validValues rest
  end.

(** [xs.reduce((a, b) => a + b, 0)] *)
Definition reduce_add (xs : list Q) : Q := fold_left (fun a b => a + b) xs 0.

Definition weightedAverage (values : list (option Q)) : option Q :=
  let valid := validValues values in
  if Nat.eqb (length valid) 0 then None
  else Some (Math_round (reduce_add valid / inject_Z (Z.of_nat (length valid)))).

(** [r?.v] *)
Definition opt_v (r : option Reading) : option Q :=
  match r with
  | None => None
  | Some r => Some (v r)
  end.

(** [stations.map((s, index) => ({..., distance: originalStations[index].distance}))]:
    reading [.distance] of [originalStations[index]] throws when the index is
    out of range. *)
Fixpoint stationEntries (stations : list StationDetail)
    (originalStations : list Selector.RankedStation) (index : nat)
    : result (list StationEntry) :=
  match stations with
  | [] => Ok []
  | s :: rest =>
      match nth_error originalStations index with
      | None => Throw TypeError
      | Some o =>
          es <- stationEntries rest originalStations (S index) ;;
          Ok ({| e_name := city_name s; e_aqi := aqi s; e_distance := Selector.distance o |} :: es)
      end
  end.

Definition processStationData (stations : list StationDetail)
    (originalStations : list Selector.RankedStation) : result CompositeReading :=
  let a := weightedAverage (map (fun s => Some (aqi s)) stations) in
  let p := {|
    p_pm25 := weightedAverage (map (fun s => opt_v (pm25 (iaqi s))) stations);
    p_pm10 := weightedAverage (map (fun s => opt_v (pm10 (iaqi s))) stations);
    p_o3 := weightedAverage (map (fun s => opt_v (o3 (iaqi s))) stations);
    p_no2 := weightedAverage (map (fun s => opt_v (no2 (iaqi s))) stations);
    p_so2 := weightedAverage (map (fun s => opt_v (so2 (iaqi s))) stations);
    p_co := weightedAverage (map (fun s => opt_v (co (iaqi s))) stations)
  |} in
  t <- match stations with
       | [] => Throw TypeError
       | s0 :: _ => Ok (time_iso s0)
       end ;;
  es <- stationEntries stations originalStations 0 ;;
  Ok {| c_aqi := a; pollutants := p; time := t; stations := es |}.

(** *** Vocabulary of the statements *)

(** The pollutant codes. *)
Inductive Pollutant := PM25 | PM10 | O3 | NO2 | SO2 | CO.

Definition station_reading (p : Pollutant) (s : StationDetail) : option Reading :=
  match p with
  | PM25 => pm25 (iaqi s)
  | PM10 => pm10 (iaqi s)
  | O3 => o3 (iaqi s)
  | NO2 => no2 (iaqi s)
  | SO2 => so2 (iaqi s)
  | CO => co (iaqi s)
  end.

Definition composite_pollutant (p : Pollutant) (c : CompositeReading) : option Q :=
  match p with
  | PM25 => p_pm25 (pollutants c)
  | PM10 => p_pm10 (pollutants c)
  | O3 => p_o3 (pollutants c)
  | NO2 => p_no2 (pollutants c)
  | SO2 => p_so2 (pollutants c)
  | CO => p_co (pollutants c)
  end.

(** The values of pollutant [p] over exactly the stations that report it. *)
Fixpoint reported (p : Pollutant) (ss : list StationDetail) : list Q :=
  match ss with
  | [] => []
  | s :: rest =>
      match station_reading p s with
      | Some r => v r :: reported p rest
      | None => reported p rest
      end
  end.

Fixpoint Qsum (xs : list Q) : Q :=
  match xs with
  | [] => 0
  | x :: rest => x + Qsum rest
  end.

(** The arithmetic mean of a list of numbers. *)
Definition mean (xs : list Q) : Q := Qsum xs / inject_Z (Z.of_nat (length xs)).

(** [z] is the integer nearest to [x], the upper one at a tie. *)
Definition nearest_integer (x : Q) (z : Z) : Prop :=
  inject_Z z - (1 # 2) <= x /\ x < inject_Z z + (1 # 2).

(** A station payload with AQI [a] and the PM2.5 reading [p25], if any. *)
Definition detail (a : Q) (p25 : option Q) : StationDetail :=
  {| aqi := a;
     iaqi := {| pm25 := option_map (fun q => {| v := q |}) p25;
                pm10 := None; o3 := None; no2 := None; so2 := None; co := None |};
     time_iso := "2024-01-01T00:00:00Z";
     city_name := "station";
     forecast := None |}.

(** The aggregated value [r] for the reported values [xs]: absent when
    there are none, else the integer nearest to their mean. *)
Definition rounded_mean_of (xs : list Q) (r : option Q) : Prop :=
  match xs with
  | [] => r = None
  | _ :: _ => exists z : Z, r = Some (inject_Z z) /\ nearest_integer (mean xs) z
  end.

(** The aggregated value [r] for the reported values [xs]: absent when
    there are none, else their mean itself. *)
Definition exact_mean_of (xs : list Q) (r : option Q) : Prop :=
  match xs with
  | [] => r = None
  | _ :: _ => exists q : Q, r = Some q /\ q == mean xs
  end.

(** A ranked station at distance [d]. *)
Definition ranked (d : R) : Selector.RankedStation :=
  {| Selector.station :=
       {| Selector.uid := 1; Selector.lat := 0%R; Selector.lon := 0%R;
          Selector.aqi := "-" |};
     Selector.distance := d |}.

(** The entry of a station and its ranked station. *)
Definition entry_of (so : StationDetail * Selector.RankedStation) : StationEntry :=
  {| e_name := city_name (fst so); e_aqi := aqi (fst so);
     e_distance := Selector.distance (snd so) |}.

End Aggregator.

(** ** Forecast formatter *)

Module Forecast.

Import Feed.

Local Open Scope Q_scope.

Record Dataset := {
  label : string;
  data : list Q;
  borderColor : string;
  backgroundColor : string;
  tension : Q
}.

Record ChartData := {
  labels : list string;
  datasets : list Dataset
}.

(** [daily[name]] *)
Fixpoint property (name : string) (daily : list (string * list DayEntry))
    : option (list DayEntry) :=
  match daily with
  | [] => None
  | (key, days) :: rest =>
      if String.eqb key name then Some days else property name rest
  end.

(** [daily[name]?.length > 0] *)
Definition has_data (name : string) (daily : list (string * list DayEntry)) : bool :=
  match property name daily with
  | Some (_ :: _) => true
  | _ => false
  end.

(** [daily[name].map(f)], which throws when the property is missing. *)
Definition map_days {B} (f : DayEntry -> B) (name : string)
    (daily : list (string * list DayEntry)) : result (list B) :=
  match property name daily with
  | Some days => Ok (map f days)
  | None => Throw TypeError
  end.

Section Format.

(** [day => new Date(day).toLocaleDateString([], {month: 'short', day: 'numeric'})] *)
Variable toLocaleDateString : string -> string.

(** [if (daily[name]?.length > 0) datasets.push({...})] *)
Definition push_dataset (name lab border background : string)
    (daily : list (string * list DayEntry)) (datasets : list Dataset)
    : result (list Dataset) :=
  if has_data name daily then
    values <- map_days avg name daily ;;
    Ok (datasets ++ [{| label := lab; data := values; borderColor := border;
                        backgroundColor := background; tension := 1 # 10 |}])
  else Ok datasets.

Definition prepareChartData (payload : option StationDetail) : result (option ChartData) :=
  match payload with
  | None => Ok None
  | Some d =>
      match forecast d with
      | None => Ok None
      | Some f =>
          match daily f with
          | None => Ok None
          | Some daily =>
              datasets <- push_dataset "pm25" "PM2.5"
                            "rgb(75, 192, 192)" "rgba(75, 192, 192, 0.2)" daily [] ;;
              datasets <- push_dataset "pm10" "PM10"
                            "rgb(255, 99, 132)" "rgba(255, 99, 132, 0.2)" daily datasets ;;
              datasets <- push_dataset "o3" "O3"
                            "rgb(53, 162, 235)" "rgba(53, 162, 235, 0.2)" daily datasets ;;
              if Nat.eqb (length datasets) 0 then Ok None
              else
                match map fst daily with
                | [] => Throw TypeError
                | key0 :: _ =>
                    dates <- map_days (fun d => toLocaleDateString (day d)) key0 daily ;;
                    Ok (Some {| labels := dates; datasets := datasets |})
                end
          end
      end
  end.

End Format.

(** The recognized pollutants, in the order the datasets are built. *)
Definition recognized : list string := ["pm25"; "pm10"; "o3"]%string.

(** The first recognized pollutant that has data. *)
Definition first_with_data (daily : list (string * list DayEntry)) : option string :=
  find (fun name => has_data name daily) recognized.

(** A feed payload with the given [forecast.daily]. *)
Definition with_daily (daily : list (string * list DayEntry)) : StationDetail :=
  {| aqi := 50;
     iaqi := {| pm25 := None; pm10 := None; o3 := None;
                no2 := None; so2 := None; co := None |};
     time_iso := "2024-01-01T00:00:00Z";
     city_name := "station";
     forecast := Some {| daily := Some daily |} |}.

(** [{"uvi": [1 day], "pm25": [2 days]}] *)
Definition uvi_first : list (string * list DayEntry) :=
  [ ("uvi"%string, [ {| day := "2024-01-01"; avg := 3 |} ]);
    ("pm25"%string, [ {| day := "2024-01-02"; avg := 40 |};
                      {| day := "2024-01-03"; avg := 42 |} ]) ].

(** [{"pm25": [], "pm10": [1 day]}] *)
Definition empty_first : list (string * list DayEntry) :=
  [ ("pm25"%string, []);
    ("pm10"%string, [ {| day := "2024-01-02"; avg := 20 |} ]) ].

(** [data?.forecast?.daily] *)
Definition daily_of (payload : option StationDetail)
    : option (list (string * list DayEntry)) :=
  match payload with
  | Some d =>
      match forecast d with
      | Some f => daily f
      | None => None
      end
  | None => None
  end.

(** The recognized pollutants with the labels of their datasets. *)
Definition series_labels : list (string * string) :=
  [ ("pm25", "PM2.5"); ("pm10", "PM10"); ("o3", "O3") ]%string.

(** The label and values of the series of a recognized pollutant, when it
    has data. *)
Definition series_of (daily : list (string * list DayEntry))
    (name_label : string * string) : list (string * list Q) :=
  match property (fst name_label) daily with
  | Some (d :: days) => [ (snd name_label, map avg (d :: days)) ]
  | _ => []
  end.

End Forecast.

(** ** The component: state and [fetchAQI] *)

Module Dashboard.

Local Open Scope R_scope.

(** The state held by the [useState] hooks. *)
Record State := {
  selectedLocation : option Geocoder.SelectOption;
  aqi : option Aggregator.CompositeReading;
  loading : bool;
  error : option string;
  mapKey : nat;
  historicalData : option Feed.StationDetail
}.

(** The air-quality service: what each request settles to ([data.data] when
    it resolves), and [race], which of several rejections settled first. *)
Record Network := {
  bounds : R -> R -> R -> R -> result (payload Selector.StationSummary);
  feed : Z -> result Feed.StationDetail;
  history : Z -> result Feed.StationDetail;
  race : exn -> list exn -> exn
}.

(** A computation over the state that returns or throws. *)
Definition M (A : Type) : Type := State -> State * result A.

Definition ret {A} (a : A) : M A := fun st => (st, Ok a).

Definition await {A} (r : result A) : M A := fun st => (st, r).

Definition bindM {A B} (m : M A) (k : A -> M B) : M B :=
  fun st =>
    match m st with
    | (st', Ok a) => k a st'
    | (st', Throw e) => (st', Throw e)
    end.

Notation "'do' x <- m ; k" := (bindM m (fun x => k))
  (at level 10, x name, m at level 100, k at level 200).
Notation "m ;> k" := (bindM m (fun _ => k))
  (at level 62, right associativity).

Definition try_catch {A} (body : M A) (handler : exn -> M A) : M A :=
  fun st =>
    match body st with
    | (st', Ok a) => (st', Ok a)
    | (st', Throw e) => handler e st'
    end.

Definition try_finally {A} (body : M A) (finalizer : M unit) : M A :=
  fun st =>
    match body st with
    | (st', r) =>
        match finalizer st' with
        | (st'', Ok _) => (st'', r)
        | (st'', Throw e) => (st'', Throw e)
        end
    end.

Definition setAqi (a : option Aggregator.CompositeReading) : M unit :=
  fun st =>
    ({| selectedLocation := selectedLocation st; aqi := a; loading := loading st;
        error := error st; mapKey := mapKey st; historicalData := historicalData st |},
     Ok tt).

Definition setLoading (b : bool) : M unit :=
  fun st =>
    ({| selectedLocation := selectedLocation st; aqi := aqi st; loading := b;
        error := error st; mapKey := mapKey st; historicalData := historicalData st |},
     Ok tt).

Definition setError (e : option string) : M unit :=
  fun st =>
    ({| selectedLocation := selectedLocation st; aqi := aqi st; loading := loading st;
        error := e; mapKey := mapKey st; historicalData := historicalData st |},
     Ok tt).

Definition setHistoricalData (h : option Feed.StationDetail) : M unit :=
  fun st =>
    ({| selectedLocation := selectedLocation st; aqi := aqi st; loading := loading st;
        error := error st; mapKey := mapKey st; historicalData := h |},
     Ok tt).

(** The reasons of the promises that reject. *)
Fixpoint rejections {A} (promises : list (result A)) : list exn :=
  match promises with
  | [] => []
  | Ok _ :: rest => rejections rest
  | Throw e :: rest => e :: rejections rest
  end.

(** The values of the promises that resolve. *)
Fixpoint fulfilled {A} (promises : list (result A)) : list A :=
  match promises with
  | [] => []
  | Ok a :: rest => a :: fulfilled rest
  | Throw _ :: rest => fulfilled rest
  end.

(** [Promise.all]: the values in order when every promise resolves, else
    the reason of the rejection that settled first. *)
Definition Promise_all {A} (first : exn -> list exn -> exn)
    (promises : list (result A)) : result (list A) :=
  match rejections promises with
  | [] => Ok (fulfilled promises)
  | e :: others => Throw (first e others)
  end.

(** [err.response?.data?.message || 'Failed to fetch AQI data. ...'] *)
Definition error_message (err : exn) : string :=
  match err with
  | AxiosError (Some (String c m)) => String c m
  | _ => "Failed to fetch AQI data. Please try again later."
  end.

Definition fetchHistoricalData (net : Network) (station : option Selector.RankedStation)
    : M Feed.StationDetail :=
  match station with
  | None => await (Throw TypeError)
  | Some s => await (history net (Selector.uid (Selector.station s)))
  end.

Definition fetchAQI (net : Network) (location : Geocoder.SelectOption) : M unit :=
  setLoading true ;>
  setError None ;>
  try_finally
    (try_catch
       (do origin <- await (match Geocoder.value location with
                            | Some ll => Ok ll
                            | None => Throw TypeError
                            end) ;
        let lat := Geocoder.lat origin in
        let lng := Geocoder.lng origin in
        do stationsResponse <-
          await (bounds net (lat - 15 / 100) (lng - 15 / 100)
                            (lat + 15 / 100) (lng + 15 / 100)) ;
        match stationsResponse with
        | Falsy | Items [] =>
            setError (Some "No AQI stations found near this location"%string)
        | NotArray => await (Throw TypeError)
        | Items data =>
            let stations := Selector.closestStations origin data in
            do stationDetails <-
              await (Promise_all (race net)
                       (map (fun s => feed net (Selector.uid (Selector.station s)))
                            stations)) ;
            do aggregatedData <-
              await (Aggregator.processStationData stationDetails stations) ;
            setAqi (Some aggregatedData) ;>
            try_catch
              (do historicalResponse <- fetchHistoricalData net (hd_error stations) ;
               setHistoricalData (Some historicalResponse))
              (fun _ => ret tt)
        end)
       (fun err => setError (Some (error_message err))))
    (setLoading false).

Definition setSelectedLocation (l : option Geocoder.SelectOption) : M unit :=
  fun st =>
    ({| selectedLocation := l; aqi := aqi st; loading := loading st;
        error := error st; mapKey := mapKey st; historicalData := historicalData st |},
     Ok tt).

(** [setMapKey(prev => f(prev))] *)
Definition setMapKey (f : nat -> nat) : M unit :=
  fun st =>
    ({| selectedLocation := selectedLocation st; aqi := aqi st; loading := loading st;
        error := error st; mapKey := f (mapKey st); historicalData := historicalData st |},
     Ok tt).

Definition handleLocationChange (newLocation : option Geocoder.SelectOption) : M unit :=
  setSelectedLocation newLocation ;>
  setMapKey (fun prev => (prev + 1)%nat).

(** The effect on [selectedLocation]:
    [if (selectedLocation) fetchAQI(selectedLocation)]. *)
Definition locationEffect (net : Network) : M unit :=
  fun st =>
    match selectedLocation st with
    | Some location => fetchAQI net location st
    | None => (st, Ok tt)
    end.

(** A change of the select box to another location: the handler, then the
    effect that the new [selectedLocation] triggers. *)
Definition changeLocation (net : Network) (newLocation : option Geocoder.SelectOption)
    : M unit :=
  handleLocationChange newLocation ;> locationEffect net.

Definition initial : State :=
  {| selectedLocation := None; aqi := None; loading := false;
     error := None; mapKey := 0; historicalData := None |}.

Definition origin0 : Geocoder.LatLng := {| Geocoder.lat := 0; Geocoder.lng := 0 |}.

Definition at_origin : Geocoder.SelectOption :=
  {| Geocoder.label := "Null Island"; Geocoder.value := Some origin0;
     Geocoder.isDisabled := false |}.

Definition station_at_origin (u : Z) : Selector.StationSummary :=
  {| Selector.uid := u; Selector.lat := 0; Selector.lon := 0; Selector.aqi := "40" |}.

(** Two stations in range; the detail request of the second is rejected. *)
Definition second_fails : Network :=
  {| bounds := fun _ _ _ _ => Ok (Items [station_at_origin 1; station_at_origin 2]);
     feed := fun u => if Z.eqb u 1 then Ok (Aggregator.detail 40%Q None)
                      else Throw (AxiosError None);
     history := fun _ => Ok (Aggregator.detail 40%Q None);
     race := fun e _ => e |}.

(** Two stations in range, both details resolve; the historical request is
    rejected. *)
Definition history_fails : Network :=
  {| bounds := fun _ _ _ _ => Ok (Items [station_at_origin 1; station_at_origin 2]);
     feed := fun u => Ok (Aggregator.detail (if Z.eqb u 1 then 40%Q else 60%Q) None);
     history := fun _ => Throw (AxiosError None);
     race := fun e _ => e |}.

(** No station in range. *)
Definition no_station : Network :=
  {| bounds := fun _ _ _ _ => Ok (Items []);
     feed := fun _ => Throw (AxiosError None);
     history := fun _ => Throw (AxiosError None);
     race := fun e _ => e |}.

(** The bounds request is rejected with a message of the service. *)
Definition bounds_rejected : Network :=
  {| bounds := fun _ _ _ _ => Throw (AxiosError (Some "Invalid key"%string));
     feed := fun _ => Throw (AxiosError None);
     history := fun _ => Throw (AxiosError None);
     race := fun e _ => e |}.

End Dashboard.

(** ** Numbers as IEEE 754 doubles *)

Module Binary64.

(** A JavaScript number: a binary64 float (53 bits of mantissa, the
    infinities at exponent 1024). *)
Definition double : Type := spec_float.

(** The literal [0]. *)
Definition zero : double := S754_zero false.

(** [a + b], rounded to the nearest double, ties to even. *)
Definition add : double -> double -> double := SFadd 53 1024.

(** [a / b], rounded to the nearest double, ties to even. *)
Definition div : double -> double -> double := SFdiv 53 1024.

(** The double nearest to an integer. *)
Definition of_Z (z : Z) : double := binary_normalize 53 1024 z 0 false.

(** The number of elements of an array, as [.length] gives it. *)
Definition of_nat (n : nat) : double := of_Z (Z.of_nat n).

(** The number [JSON.parse] makes of a literal that denotes [q]: the
    double nearest to [q].  (One rounding, as long as the numerator and the
    denominator of [q] are themselves doubles, which covers every literal
    of up to 15 significant digits.) *)
Definition number (q : Q) : double := div (of_Z (Qnum q)) (of_Z (Zpos (Qden q))).

(** 2 to the power [e]. *)
Definition pow2 (e : Z) : Q :=
  match e with
  | Z0 => 1
  | Zpos p => inject_Z (Zpos (2 ^ p))
  | Zneg p => 1 # (2 ^ p)
  end.

Definition signed (s : bool) (m : positive) : Z := if s then Zneg m else Zpos m.

(** The rational a double stands for; none for NaN and the infinities. *)
Definition value (x : double) : option Q :=
  match x with
  | S754_zero _ => Some 0
  | S754_finite s m e => Some (inject_Z (signed s m) * pow2 e)
  | S754_infinity _ => None
  | S754_nan => None
  end.

(** The double of the integer [p], of at most 53 bits, with sign [s]. *)
Definition normalized (s : bool) (p : positive) : double :=
  match (53 - Zpos (digits2_pos p))%Z with
  | Zpos k => S754_finite s (p * 2 ^ k) (Zneg k)
  | _ => S754_finite s p 0
  end.

(** The double of an integer of at most 53 bits; [s] is the sign of the
    zero. *)
Definition of_integer (s : bool) (z : Z) : double :=
  match z with
  | Z0 => S754_zero s
  | Zpos p => normalized false p
  | Zneg p => normalized true p
  end.

(** [Math.round]: the integer nearest to [x], ties towards +infinity: the
    floor of [x + 1/2], taken exactly.  NaN, the infinities and the zeros
    are returned as they are, and so are the doubles with a non-negative
    exponent, which are integers; a negative [x] that rounds to zero gives
    [-0]. *)
Definition Math_round (x : double) : double :=
  match x with
  | S754_finite s m e =>
      if (0 <=? e)%Z then x
      else of_integer s (Qfloor (inject_Z (signed s m) * pow2 e + (1 # 2)))
  | _ => x
  end.

(** [x] stands for the rational [q]. *)
Definition is_value (x : double) (q : Q) : Prop :=
  match value x with
  | Some v => v == q
  | None => False
  end.

End Binary64.

(** ** Reading aggregator, over doubles *)

Module Aggregator64.

Import Feed Binary64.

Record Pollutants := {
  p_pm25 : option double;
  p_pm10 : option double;
  p_o3 : option double;
  p_no2 : option double;
  p_so2 : option double;
  p_co : option double
}.

Record StationEntry := {
  e_name : string;
  e_aqi : double;
  e_distance : R
}.

(** The object [processStationData] returns.  [None] in [c_aqi] and in
    [pollutants] stands for [null]. *)
Record CompositeReading := {
  c_aqi : option double;
  pollutants : Pollutants;
  time : string;
  stations : list StationEntry
}.

(** [values.filter(v => v !== undefined)]: [None] in [values] stands for
    [undefined]. *)
Fixpoint validValues (values : list (option double)) : list double :=
  match values with
  | [] => []
  | None :: rest => validValues rest
  | Some x :: rest => x :: validValues rest
  end.

(** [xs.reduce((a, b) => a + b, 0)] *)
Definition reduce_add (xs : list double) : double :=
  fold_left (fun a b => add a b) xs zero.

Definition weightedAverage (values : list (option double)) : option double :=
  let valid := validValues values in
  if Nat.eqb (length valid) 0 then None
  else Some (Math_round (div (reduce_add valid) (of_nat (length valid)))).

(** [s.aqi]: the payload keeps the rational of the JSON literal, the code
    reads the double [JSON.parse] made of it. *)
Definition aqi_of (s : StationDetail) : double := number (aqi s).

(** [r?.v] *)
Definition opt_v (r : option Reading) : option double :=
  match r with
  | None => None
  | Some r => Some (number (v r))
  end.

(** [stations.map((s, index) => ({..., distance: originalStations[index].distance}))] *)
Fixpoint stationEntries (stations : list StationDetail)
    (originalStations : list Selector.RankedStation) (index : nat)
    : result (list StationEntry) :=
  match stations with
  | [] => Ok []
  | s :: rest =>
      match nth_error originalStations index with
      | None => Throw TypeError
      | Some o =>
          es <- stationEntries rest originalStations (S index) ;;
          Ok ({| e_name := city_name s; e_aqi := aqi_of s;
                 e_distance := Selector.distance o |} :: es)
      end
  end.

Definition processStationData (stations : list StationDetail)
    (originalStations : list Selector.RankedStation) : result CompositeReading :=
  let a := weightedAverage (map (fun s => Some (aqi_of s)) stations) in
  let p := {|
    p_pm25 := weightedAverage (map (fun s => opt_v (pm25 (iaqi s))) stations);
    p_pm10 := weightedAverage (map (fun s => opt_v (pm10 (iaqi s))) stations);
    p_o3 := weightedAverage (map (fun s => opt_v (o3 (iaqi s))) stations);
    p_no2 := weightedAverage (map (fun s => opt_v (no2 (iaqi s))) stations);
    p_so2 := weightedAverage (map (fun s => opt_v (so2 (iaqi s))) stations);
    p_co := weightedAverage (map (fun s => opt_v (co (iaqi s))) stations)
  |} in
  t <- match stations with
       | [] => Throw TypeError
       | s0 :: _ => Ok (time_iso s0)
       end ;;
  es <- stationEntries stations originalStations 0 ;;
  Ok {| c_aqi := a; pollutants := p; time := t; stations := es |}.

(** *** Vocabulary of the statements *)

Definition composite_pollutant (p : Aggregator.Pollutant) (c : CompositeReading)
    : option double :=
  match p with
  | Aggregator.PM25 => p_pm25 (pollutants c)
  | Aggregator.PM10 => p_pm10 (pollutants c)
  | Aggregator.O3 => p_o3 (pollutants c)
  | Aggregator.NO2 => p_no2 (pollutants c)
  | Aggregator.SO2 => p_so2 (pollutants c)
  | Aggregator.CO => p_co (pollutants c)
  end.

(** The mean of the numbers [xs] as doubles compute it: the sum from 0 in
    the order of [xs], each addition rounded, divided by the count, the
    quotient rounded. *)
Definition double_mean (xs : list Q) : double :=
  div (fold_left add (map number xs) zero) (of_nat (length xs)).

(** [r] is [Math.round] of the double [x]: when [x] is finite, the integer
    nearest to [x], the upper one at a tie; else [x] itself, an infinity or
    NaN. *)
Definition rounded (x r : double) : Prop :=
  r = Math_round x
  /\ match value x with
     | Some q => exists z : Z, is_value r (inject_Z z) /\ Aggregator.nearest_integer q z
     | None => r = x
     end.

(** The aggregated value [r] for the reported values [xs]: absent when
    there are none, else [Math.round] of their mean as doubles compute
    it. *)
Definition rounded_double_mean_of (xs : list Q) (r : option double) : Prop :=
  match xs with
  | [] => r = None
  | _ :: _ => exists d, r = Some d /\ rounded (double_mean xs) d
  end.

(** The stored number is an integer. *)
Definition is_integer (x : double) : Prop := exists z : Z, is_value x (inject_Z z).

(** A station whose AQI is the literal 1e308. *)
Definition overflowing : StationDetail :=
  Aggregator.detail (inject_Z (10 ^ 308)) None.

End Aggregator64.

(** ** AQI classification *)

Module Classification.

Local Open Scope Q_scope.

Definition getAQIColor (aqi : Q) : string :=
  if Qle_bool aqi 50 then "bg-green-500"
  else if Qle_bool aqi 100 then "bg-yellow-500"
  else if Qle_bool aqi 150 then "bg-orange-500"
  else if Qle_bool aqi 200 then "bg-red-500"
  else if Qle_bool aqi 300 then "bg-purple-500"
  else "bg-red-900".

Definition getHealthRecommendations (aqi : Q) : string :=
  if Qle_bool aqi 50 then "Air quality is good. Perfect for outdoor activities!"
  else if Qle_bool aqi 100 then
    "Sensitive individuals should consider limiting prolonged outdoor exposure."
  else if Qle_bool aqi 150 then
    "Everyone should reduce prolonged or heavy outdoor exertion."
  else if Qle_bool aqi 200 then "Avoid prolonged or heavy outdoor exertion."
  else if Qle_bool aqi 300 then "Stay indoors and keep activity levels low."
  else "Hazardous conditions! Avoid all outdoor activities.".

End Classification.

(** * Properties *)

(** ** Distance calculator *)

Module DistanceFacts.

Import Distance.

Local Open Scope R_scope.

Lemma Math_atan2_0_1 : Math_atan2 0 1 = 0.
Proof.
  unfold Math_atan2.
  destruct (total_order_T 1 0) as [[H | H] | H]; try lra.
  replace (0 / 1) with 0 by field.
  apply atan_0.
Qed.

(** C8: the distance is symmetric in its two coordinates, and the distance
    from a coordinate to itself is 0. *)
Theorem calculateDistance_symmetric_zero :
  (forall lat1 lon1 lat2 lon2 : R,
      calculateDistance lat1 lon1 lat2 lon2 = calculateDistance lat2 lon2 lat1 lon1)
  /\ (forall lat lon : R, calculateDistance lat lon lat lon = 0).
Proof.
  split.
  - intros lat1 lon1 lat2 lon2. unfold calculateDistance. cbv zeta.
    replace ((lat1 - lat2) * PI / 180 / 2) with (- ((lat2 - lat1) * PI / 180 / 2)) by field.
    replace ((lon1 - lon2) * PI / 180 / 2) with (- ((lon2 - lon1) * PI / 180 / 2)) by field.
    rewrite !sin_neg.
    match goal with
    | |- _ * (_ * Math_atan2 (sqrt ?A) _) = _ * (_ * Math_atan2 (sqrt ?B) _) =>
        replace B with A by ring
    end.
    reflexivity.
  - intros lat lon. unfold calculateDistance. cbv zeta.
    replace ((lat - lat) * PI / 180 / 2) with 0 by field.
    replace ((lon - lon) * PI / 180 / 2) with 0 by field.
    rewrite sin_0.
    replace (0 * 0 + cos (lat * PI / 180) * cos (lat * PI / 180) * 0 * 0) with 0 by ring.
    rewrite Rminus_0_r, sqrt_0, sqrt_1, Math_atan2_0_1. ring.
Qed.

End DistanceFacts.

(** ** Station selector *)

Module SelectorFacts.

Import Selector.

Local Open Scope R_scope.

Section SortByKey.

Variable A : Type.
Variable key : A -> R.

Local Abbreviation by_key := (Selector.by_key key).
Local Abbreviation key_le := (Selector.key_le key).
Local Abbreviation with_key := (Selector.with_key key).

Lemma insert_perm (x : A) (l : list A) : Permutation (insert by_key x l) (x :: l).
Proof.
  induction l as [| y rest IH]; simpl.
  - apply Permutation_refl.
  - destruct (Rlt_dec (by_key y x) 0).
    + apply perm_trans with (y :: x :: rest).
      * apply perm_skip, IH.
      * apply perm_swap.
    + apply Permutation_refl.
Qed.

Lemma sort_perm (l : list A) : Permutation (sort by_key l) l.
Proof.
  induction l as [| x rest IH]; simpl.
  - apply perm_nil.
  - apply perm_trans with (x :: sort by_key rest).
    + apply insert_perm.
    + apply perm_skip, IH.
Qed.

Lemma insert_sorted (x : A) (l : list A) :
  StronglySorted key_le l -> StronglySorted key_le (insert by_key x l).
Proof.
  induction 1 as [| y rest Hrest IH Hy]; simpl.
  - constructor; constructor.
  - destruct (Rlt_dec (by_key y x) 0) as [Hlt | Hge].
    + constructor; [exact IH |].
      apply (Permutation_Forall (Permutation_sym (insert_perm x rest))).
      constructor; [| exact Hy].
      unfold key_le, by_key in *. lra.
    + assert (Hxy : key x <= key y) by (unfold by_key in Hge; lra).
      constructor.
      * constructor; assumption.
      * constructor; [exact Hxy |].
        eapply Forall_impl; [| exact Hy].
        unfold key_le. intros z Hz. lra.
Qed.

Lemma sort_sorted (l : list A) : StronglySorted key_le (sort by_key l).
Proof.
  induction l as [| x rest IH]; simpl.
  - constructor.
  - apply insert_sorted, IH.
Qed.

Lemma insert_with_key (d : R) (x : A) (l : list A) :
  with_key d (insert by_key x l) = with_key d (x :: l).
Proof.
  induction l as [| y rest IH]; [reflexivity |].
  simpl insert.
  destruct (Rlt_dec (by_key y x) 0) as [Hlt | Hge]; [| reflexivity].
  unfold with_key in *. simpl in *. rewrite IH.
  destruct (Req_dec_T (key x) d) as [Hx | Hx]; [| reflexivity].
  destruct (Req_dec_T (key y) d) as [Hy | Hy]; [| reflexivity].
  unfold by_key in Hlt. lra.
Qed.

Lemma sort_with_key (d : R) (l : list A) :
  with_key d (sort by_key l) = with_key d l.
Proof.
  induction l as [| x rest IH]; [reflexivity |].
  simpl sort. rewrite insert_with_key.
  unfold with_key in *. simpl. rewrite IH. reflexivity.
Qed.

Lemma firstn_sorted (n : nat) (l : list A) :
  StronglySorted key_le l -> StronglySorted key_le (firstn n l).
Proof.
  intros H. revert n.
  induction H as [| y rest Hrest IH Hy]; intros [| n]; simpl; try constructor.
  - apply IH.
  - apply Forall_forall. intros z Hz.
    rewrite Forall_forall in Hy. apply Hy.
    rewrite <- (firstn_skipn n rest). apply in_or_app. left. exact Hz.
Qed.

End SortByKey.


End SelectorFacts.

(** ** Reading aggregator *)

Module AggregatorFacts.

Import Feed Aggregator.

Local Open Scope Q_scope.

Lemma Math_round_nearest (x : Q) : nearest_integer x (Qfloor (x + (1 # 2))).
Proof.
  unfold nearest_integer.
  pose proof (Qfloor_le (x + (1 # 2))) as Hle.
  pose proof (Qlt_floor (x + (1 # 2))) as Hlt.
  rewrite inject_Z_plus in Hlt.
  change (inject_Z 1) with 1 in Hlt.
  split; Lqa.lra.
Qed.

Lemma Math_round_comp (x y : Q) : x == y -> Math_round x = Math_round y.
Proof.
  intros H. unfold Math_round. f_equal.
  apply Qfloor_comp. rewrite H. reflexivity.
Qed.

Lemma fold_add_Qsum (xs : list Q) (acc : Q) :
  fold_left (fun a b => a + b) xs acc == acc + Qsum xs.
Proof.
  revert acc. induction xs as [| x rest IH]; intros acc; simpl.
  - ring.
  - rewrite IH. ring.
Qed.

Lemma reduce_add_Qsum (xs : list Q) : reduce_add xs == Qsum xs.
Proof. unfold reduce_add. rewrite fold_add_Qsum. ring. Qed.

Lemma weightedAverage_valid (values : list (option Q)) :
  weightedAverage values =
  match validValues values with
  | [] => None
  | xs => Some (Math_round (mean xs))
  end.
Proof.
  unfold weightedAverage.
  destruct (validValues values) as [| x rest] eqn:E; [reflexivity |].
  cbv zeta. simpl Nat.eqb. cbv iota. f_equal.
  apply Math_round_comp. unfold mean.
  rewrite reduce_add_Qsum. reflexivity.
Qed.

Lemma weightedAverage_rounded_mean (values : list (option Q)) :
  rounded_mean_of (validValues values) (weightedAverage values).
Proof.
  rewrite weightedAverage_valid. unfold rounded_mean_of.
  destruct (validValues values) as [| x rest]; [reflexivity |].
  exists (Qfloor (mean (x :: rest) + (1 # 2))).
  split; [reflexivity | apply Math_round_nearest].
Qed.

Lemma validValues_reported (p : Pollutant) (ss : list StationDetail) :
  validValues (map (fun s => opt_v (station_reading p s)) ss) = reported p ss.
Proof.
  induction ss as [| s rest IH]; simpl; [reflexivity |].
  destruct (station_reading p s); simpl; rewrite IH; reflexivity.
Qed.

Lemma validValues_all (ss : list StationDetail) :
  validValues (map (fun s => Some (aqi s)) ss) = map aqi ss.
Proof.
  induction ss as [| s rest IH]; simpl; [reflexivity |].
  rewrite IH. reflexivity.
Qed.

Lemma validValues_app (l1 l2 : list (option Q)) :
  validValues (l1 ++ l2) = validValues l1 ++ validValues l2.
Proof.
  induction l1 as [| [x |] rest IH]; simpl; [reflexivity | |]; rewrite ?IH; reflexivity.
Qed.

Lemma validValues_In (values : list (option Q)) (q : Q) :
  In (Some q) values <-> In q (validValues values).
Proof.
  induction values as [| [x |] rest IH]; simpl.
  - tauto.
  - rewrite <- IH. split; intros [H | H]; auto.
    + left. congruence.
    + left. congruence.
  - rewrite <- IH. split; [intros [H | H]; [discriminate | exact H] | auto].
Qed.

Lemma stationEntries_returns (ss : list StationDetail)
    (orig : list Selector.RankedStation) (index : nat) :
  (index + length ss <= length orig)%nat ->
  exists es, stationEntries ss orig index = Ok es.
Proof.
  revert index. induction ss as [| s rest IH]; intros index H; simpl in *.
  - eexists. reflexivity.
  - destruct (nth_error orig index) as [o |] eqn:E.
    + destruct (IH (S index)) as [es Hes]; [lia |].
      rewrite Hes. simpl. eexists. reflexivity.
    + apply nth_error_None in E. lia.
Qed.

(** With at least one station and a ranked station for each of them,
    [processStationData] returns, and its averages are those of
    [weightedAverage]. *)
Lemma processStationData_returns (ss : list StationDetail)
    (orig : list Selector.RankedStation) :
  ss <> [] -> (length ss <= length orig)%nat ->
  exists c, processStationData ss orig = Ok c.
Proof.
  intros Hne Hlen. unfold processStationData.
  destruct ss as [| s0 rest]; [congruence |].
  destruct (stationEntries_returns (s0 :: rest) orig 0) as [es Hes]; [simpl in *; lia |].
  cbv zeta. unfold bind. rewrite Hes. eexists. reflexivity.
Qed.

Lemma processStationData_fields (ss : list StationDetail)
    (orig : list Selector.RankedStation) (c : CompositeReading) :
  processStationData ss orig = Ok c ->
  c_aqi c = weightedAverage (map (fun s => Some (aqi s)) ss)
  /\ forall p, composite_pollutant p c
               = weightedAverage (map (fun s => opt_v (station_reading p s)) ss).
Proof.
  unfold processStationData. cbv zeta.
  destruct ss as [| s0 rest]; [discriminate |].
  unfold bind.
  destruct (stationEntries (s0 :: rest) orig 0) as [es | e]; [| discriminate].
  intros H. injection H as <-.
  split; [reflexivity |].
  intros []; reflexivity.
Qed.

Lemma processStationData_pollutant (ss : list StationDetail)
    (orig : list Selector.RankedStation) (c : CompositeReading) (p : Pollutant) :
  processStationData ss orig = Ok c ->
  rounded_mean_of (reported p ss) (composite_pollutant p c).
Proof.
  intros H. destruct (processStationData_fields _ _ H) as [_ Hp].
  rewrite Hp, <- validValues_reported. apply weightedAverage_rounded_mean.
Qed.

Lemma processStationData_aqi (ss : list StationDetail)
    (orig : list Selector.RankedStation) (c : CompositeReading) :
  processStationData ss orig = Ok c ->
  rounded_mean_of (map aqi ss) (c_aqi c).
Proof.
  intros H. destruct (processStationData_fields _ _ H) as [Ha _].
  rewrite Ha, <- validValues_all. apply weightedAverage_rounded_mean.
Qed.

Lemma rounded_mean_of_Some (xs : list Q) (q : Q) :
  rounded_mean_of xs (Some q) ->
  exists z : Z, q = inject_Z z /\ nearest_integer (mean xs) z.
Proof.
  destruct xs as [| x rest]; simpl; [discriminate |].
  intros [z [Hq Hz]]. exists z. split; [congruence | exact Hz].
Qed.

Lemma Qsum_app (xs ys : list Q) : Qsum (xs ++ ys) == Qsum xs + Qsum ys.
Proof.
  induction xs as [| x rest IH]; simpl.
  - ring.
  - rewrite IH. ring.
Qed.

Lemma reported_In (p : Pollutant) (ss : list StationDetail) (s : StationDetail)
    (r : Reading) :
  In s ss -> station_reading p s = Some r -> In (v r) (reported p ss).
Proof.
  induction ss as [| s' rest IH]; simpl; [tauto |].
  intros [-> | Hin] Hr.
  - rewrite Hr. left. reflexivity.
  - destruct (station_reading p s'); [right |]; apply IH; assumption.
Qed.

(** C1, as stated, fails: with PM2.5 readings 1 and 2 the aggregated value
    is 2, not the mean 3/2. *)
Lemma pollutant_mean_not_exact :
  ~ (forall (ss : list StationDetail) (orig : list Selector.RankedStation)
            (c : CompositeReading) (p : Pollutant),
        processStationData ss orig = Ok c ->
        exact_mean_of (reported p ss) (composite_pollutant p c)).
Proof.
  intros H.
  specialize (H [detail 40 (Some 1); detail 60 (Some 2)]
                [ranked 1%R; ranked 2%R] _ PM25 eq_refl).
  simpl in H. destruct H as [q [Hq Hmean]].
  injection Hq as <-.
  revert Hmean. unfold mean, Math_round, reduce_add. simpl.
  unfold Qeq. simpl. discriminate.
Qed.





End AggregatorFacts.

(** ** Geocoder *)

Module GeocoderFacts.

Import Geocoder.

Lemma nonempty_not_empty (q : string) : q <> EmptyString -> is_empty q = false.
Proof. destruct q; [congruence | reflexivity]. Qed.

Lemma loadOptions_nonempty (parseFloat : string -> R)
    (search : string -> result (payload Place)) (q : string) :
  q <> EmptyString ->
  loadOptions parseFloat search q
  = ([q], match loadOptions_try parseFloat search q with
          | Ok options => Ok options
          | Throw _ => Ok [error_loading]
          end).
Proof.
  intros H. unfold loadOptions. rewrite (nonempty_not_empty H). reflexivity.
Qed.

(** C5, as stated, fails: the query of one space is sent to the geocoding
    service. *)
Lemma whitespace_query_is_sent :
  ~ (forall (parseFloat : string -> R) (search : string -> result (payload Place))
            (q : string),
        whitespace_only q = true ->
        loadOptions parseFloat search q = ([], Ok [])).
Proof.
  intros H.
  specialize (H (fun _ => 0%R) (fun _ => Ok (Items [])) " "%string eq_refl).
  discriminate H.
Qed.

(** C5 (amended): the empty query returns the empty sequence without a
    request; every other query, one of white space only included, sends one
    request. *)
Theorem empty_query_no_request :
  forall (parseFloat : string -> R) (search : string -> result (payload Place)),
    loadOptions parseFloat search EmptyString = ([], Ok [])
    /\ forall q, q <> EmptyString -> fst (loadOptions parseFloat search q) = [q].
Proof.
  intros parseFloat search. split; [reflexivity |].
  intros q Hq. rewrite (loadOptions_nonempty parseFloat search Hq). reflexivity.
Qed.

Lemma empty_query_no_request_witness :
  loadOptions (fun _ => 0%R) (fun _ => Ok (Items [])) EmptyString = ([], Ok [])
  /\ fst (loadOptions (fun _ => 0%R) (fun _ => Ok (Items [])) " ") = [" "%string].
Proof.
  split.
  - apply (proj1 (empty_query_no_request (fun _ => 0%R) (fun _ => Ok (Items [])))).
  - apply (proj2 (empty_query_no_request (fun _ => 0%R) (fun _ => Ok (Items [])))).
    discriminate.
Defined.

(** C7: the promise of [loadOptions] always resolves; after a response with
    no match it holds the one disabled entry 'No locations found', and after
    a rejected request or a body that is not an array the one disabled entry
    'Error loading locations'. *)
Theorem loadOptions_never_rejects :
  forall (parseFloat : string -> R) (search : string -> result (payload Place))
         (q : string),
    (exists options, snd (loadOptions parseFloat search q) = Ok options)
    /\ (q <> EmptyString -> search q = Ok (Items []) ->
        snd (loadOptions parseFloat search q) = Ok [no_locations])
    /\ (q <> EmptyString -> (exists e, search q = Throw e) ->
        snd (loadOptions parseFloat search q) = Ok [error_loading])
    /\ (q <> EmptyString -> search q = Ok NotArray ->
        snd (loadOptions parseFloat search q) = Ok [error_loading])
    /\ (label no_locations = "No locations found"%string
        /\ isDisabled no_locations = true /\ value no_locations = None)
    /\ (label error_loading = "Error loading locations"%string
        /\ isDisabled error_loading = true /\ value error_loading = None).
Proof.
  intros parseFloat search q.
  split.
  - unfold loadOptions. destruct (is_empty q); simpl.
    + eexists. reflexivity.
    + destruct (loadOptions_try parseFloat search q); eexists; reflexivity.
  - repeat split; try reflexivity.
    + intros Hq Hs. rewrite (loadOptions_nonempty parseFloat search Hq).
      unfold loadOptions_try. rewrite Hs. reflexivity.
    + intros Hq [e Hs]. rewrite (loadOptions_nonempty parseFloat search Hq).
      unfold loadOptions_try. rewrite Hs. reflexivity.
    + intros Hq Hs. rewrite (loadOptions_nonempty parseFloat search Hq).
      unfold loadOptions_try. rewrite Hs. reflexivity.
Qed.

Lemma loadOptions_never_rejects_witness :
  snd (loadOptions (fun _ => 0%R) (fun _ => Ok (Items [])) "Pune") = Ok [no_locations]
  /\ snd (loadOptions (fun _ => 0%R) (fun _ => Throw (AxiosError None)) "Pune")
     = Ok [error_loading]
  /\ snd (loadOptions (fun _ => 0%R) (fun _ => Ok NotArray) "Pune") = Ok [error_loading].
Proof.
  split; [| split].
  - apply (proj1 (proj2 (loadOptions_never_rejects
                           (fun _ => 0%R) (fun _ => Ok (Items [])) "Pune")));
      [discriminate | reflexivity].
  - apply (proj1 (proj2 (proj2 (loadOptions_never_rejects
                           (fun _ => 0%R) (fun _ => Throw (AxiosError None)) "Pune"))));
      [discriminate | eexists; reflexivity].
  - apply (proj1 (proj2 (proj2 (proj2 (loadOptions_never_rejects
                           (fun _ => 0%R) (fun _ => Ok NotArray) "Pune")))));
      [discriminate | reflexivity].
Defined.

End GeocoderFacts.

(** ** Forecast formatter *)

Module ForecastFacts.

Import Feed Forecast.

Local Open Scope Q_scope.

Lemma push_dataset_returns (name lab border background : string)
    (daily : list (string * list DayEntry)) (datasets : list Dataset) :
  exists datasets', push_dataset name lab border background daily datasets = Ok datasets'.
Proof.
  unfold push_dataset, has_data, map_days.
  destruct (property name daily) as [[| d days] |]; eexists; reflexivity.
Qed.

(** Whenever a chart is produced, its labels are the days of the first
    property of [forecast.daily], whichever it is. *)
Lemma labels_from_first_key (fmt : string -> string) (d : StationDetail)
    (chart : ChartData) :
  prepareChartData fmt (Some d) = Ok (Some chart) ->
  exists f key0 days rest,
    forecast d = Some f
    /\ daily f = Some ((key0, days) :: rest)
    /\ labels chart = map (fun e => fmt (day e)) days.
Proof.
  unfold prepareChartData.
  destruct (forecast d) as [f |]; [| discriminate].
  destruct (daily f) as [dl |] eqn:Edaily; [| discriminate].
  destruct (push_dataset_returns "pm25" "PM2.5" "rgb(75, 192, 192)"
              "rgba(75, 192, 192, 0.2)" dl []) as [ds1 ->].
  simpl bind.
  destruct (push_dataset_returns "pm10" "PM10" "rgb(255, 99, 132)"
              "rgba(255, 99, 132, 0.2)" dl ds1) as [ds2 ->].
  simpl bind.
  destruct (push_dataset_returns "o3" "O3" "rgb(53, 162, 235)"
              "rgba(53, 162, 235, 0.2)" dl ds2) as [ds3 ->].
  simpl bind.
  destruct (Nat.eqb (length ds3) 0); [discriminate |].
  destruct dl as [| [key0 days] rest]; [discriminate |].
  simpl map. unfold map_days. simpl property. rewrite String.eqb_refl.
  simpl. intros H. injection H as <-.
  exists f, key0, days, rest. repeat split. exact Edaily.
Qed.

(** C6: for [{"uvi": [1 day], "pm25": [2 days]}] the chart has the one
    dataset PM2.5 with two points, and its labels are the one day of [uvi],
    although the first recognized pollutant with data is [pm25], whose days
    are the two others. *)
Theorem labels_from_unrecognized_key :
  forall fmt : string -> string,
    prepareChartData fmt (Some (with_daily uvi_first))
    = Ok (Some {| labels := [fmt "2024-01-01"%string];
                  datasets := [ {| label := "PM2.5"; data := [40; 42];
                                   borderColor := "rgb(75, 192, 192)";
                                   backgroundColor := "rgba(75, 192, 192, 0.2)";
                                   tension := 1 # 10 |} ] |})
    /\ first_with_data uvi_first = Some "pm25"%string
    /\ map_days (fun d => fmt (day d)) "pm25" uvi_first
       = Ok [fmt "2024-01-02"%string; fmt "2024-01-03"%string].
Proof.
  intros fmt. repeat split.
Qed.

(** For [{"pm25": [], "pm10": [1 day]}] the chart has the dataset PM10 and
    no label at all. *)
Lemma labels_from_empty_key :
  forall fmt : string -> string,
    exists ds,
      prepareChartData fmt (Some (with_daily empty_first))
      = Ok (Some {| labels := []; datasets := [ds] |})
      /\ label ds = "PM10"%string
      /\ first_with_data empty_first = Some "pm10"%string.
Proof.
  intros fmt. eexists. repeat split.
Qed.

End ForecastFacts.

(** ** The component *)

Module DashboardFacts.

Import Dashboard.

Local Open Scope R_scope.

Lemma rejections_In {A B} (f : A -> result B) (l : list A) (x : A) (e : exn) :
  In x l -> f x = Throw e -> rejections (map f l) <> [].
Proof.
  induction l as [| y rest IH]; simpl; [tauto |].
  intros [-> | Hin] Hx.
  - rewrite Hx. discriminate.
  - destruct (f y); [apply IH; assumption | discriminate].
Qed.

Lemma Promise_all_rejects {A B} (first : exn -> list exn -> exn)
    (f : A -> result B) (l : list A) (x : A) (e : exn) :
  In x l -> f x = Throw e -> exists e', Promise_all first (map f l) = Throw e'.
Proof.
  intros Hin Hx. unfold Promise_all.
  pose proof (rejections_In f l x Hin Hx) as Hne.
  destruct (rejections (map f l)) as [| e0 others]; [congruence |].
  eexists. reflexivity.
Qed.

Lemma Promise_all_resolves {A B} (first : exn -> list exn -> exn)
    (f : A -> result B) (l : list A) :
  (forall x, In x l -> exists b, f x = Ok b) ->
  exists bs, Promise_all first (map f l) = Ok bs /\ length bs = length l.
Proof.
  intros H. unfold Promise_all.
  assert (Hl : rejections (map f l) = [] /\ length (fulfilled (map f l)) = length l).
  { induction l as [| y rest IH]; simpl; [auto |].
    destruct (H y (or_introl eq_refl)) as [b ->].
    destruct IH as [IH1 IH2]; [intros x Hx; apply H; right; exact Hx |].
    simpl. auto. }
  destruct Hl as [-> Hlen]. eexists. split; [reflexivity | exact Hlen].
Qed.

(** With at most three stations in range, every one of them is selected. *)
Lemma closestStations_all (origin : Geocoder.LatLng)
    (data : list Selector.StationSummary) :
  (length data <= 3)%nat ->
  Permutation (Selector.closestStations origin data)
              (map (Selector.withDistance origin) data).
Proof.
  intros Hlen. unfold Selector.closestStations, Selector.slice0.
  pose proof (@SelectorFacts.sort_perm _ Selector.distance
                (map (Selector.withDistance origin) data)) as Hperm.
  rewrite firstn_all2; [exact Hperm |].
  unfold Selector.rankedStations.
  rewrite (Permutation_length Hperm), length_map. exact Hlen.
Qed.

Lemma closestStations_nonempty (origin : Geocoder.LatLng)
    (s : Selector.StationSummary) (data : list Selector.StationSummary) :
  Selector.closestStations origin (s :: data) <> [].
Proof.
  unfold Selector.closestStations, Selector.slice0.
  pose proof (@SelectorFacts.sort_perm _ Selector.distance
                (map (Selector.withDistance origin) (s :: data))) as Hperm.
  unfold Selector.rankedStations.
  destruct (Selector.sort _ _) as [| x l] eqn:E.
  - apply Permutation_nil in Hperm. discriminate.
  - discriminate.
Qed.

(** C3: when the detail request of any selected station is rejected,
    [fetchAQI] leaves the composite reading (and the historical data) of the
    state as they were, records an error message and ends loading. *)
Theorem fetchAQI_fails_fast :
  forall (net : Network) (location : Geocoder.SelectOption)
         (origin : Geocoder.LatLng) (data : list Selector.StationSummary)
         (s : Selector.RankedStation) (e : exn) (st : State),
    Geocoder.value location = Some origin ->
    bounds net (Geocoder.lat origin - 15 / 100) (Geocoder.lng origin - 15 / 100)
               (Geocoder.lat origin + 15 / 100) (Geocoder.lng origin + 15 / 100)
    = Ok (Items data) ->
    In s (Selector.closestStations origin data) ->
    feed net (Selector.uid (Selector.station s)) = Throw e ->
    let st' := fst (fetchAQI net location st) in
    aqi st' = aqi st
    /\ historicalData st' = historicalData st
    /\ (exists message, error st' = Some message)
    /\ loading st' = false.
Proof.
  intros net location origin data s e st Hvalue Hbounds Hin Hfeed.
  destruct data as [| s0 data]; [contradiction |].
  destruct (Promise_all_rejects (race net)
              (fun s => feed net (Selector.uid (Selector.station s)))
              _ _ Hin Hfeed) as [e' He'].
  unfold fetchAQI, try_finally, try_catch, bindM, await, setLoading, setError.
  cbn -[Selector.closestStations Promise_all Aggregator.processStationData].
  rewrite Hvalue.
  cbn -[Selector.closestStations Promise_all Aggregator.processStationData].
  rewrite Hbounds.
  cbn -[Selector.closestStations Promise_all Aggregator.processStationData].
  rewrite He'.
  cbn. repeat split. eexists. reflexivity.
Qed.

Lemma fetchAQI_fails_fast_witness :
  let st' := fst (fetchAQI second_fails at_origin initial) in
  aqi st' = aqi initial
  /\ historicalData st' = historicalData initial
  /\ (exists message, error st' = Some message)
  /\ loading st' = false.
Proof.
  apply (@fetchAQI_fails_fast second_fails at_origin origin0
           [station_at_origin 1; station_at_origin 2]
           (Selector.withDistance origin0 (station_at_origin 2))
           (AxiosError None) initial).
  - reflexivity.
  - reflexivity.
  - apply (Permutation_in _
             (Permutation_sym (@closestStations_all origin0
                [station_at_origin 1; station_at_origin 2] ltac:(simpl; lia)))).
    simpl. right. left. reflexivity.
  - reflexivity.
Defined.

(** When every detail request resolves, [fetchAQI] stores the composite
    reading of all the selected stations. *)
Lemma fetchAQI_aggregates_all :
  forall (net : Network) (location : Geocoder.SelectOption)
         (origin : Geocoder.LatLng) (s0 : Selector.StationSummary)
         (data : list Selector.StationSummary) (st : State),
    Geocoder.value location = Some origin ->
    bounds net (Geocoder.lat origin - 15 / 100) (Geocoder.lng origin - 15 / 100)
               (Geocoder.lat origin + 15 / 100) (Geocoder.lng origin + 15 / 100)
    = Ok (Items (s0 :: data)) ->
    (forall s, In s (Selector.closestStations origin (s0 :: data)) ->
       exists d, feed net (Selector.uid (Selector.station s)) = Ok d) ->
    exists details c,
      Promise_all (race net)
        (map (fun s => feed net (Selector.uid (Selector.station s)))
             (Selector.closestStations origin (s0 :: data))) = Ok details
      /\ Aggregator.processStationData details
           (Selector.closestStations origin (s0 :: data)) = Ok c
      /\ aqi (fst (fetchAQI net location st)) = Some c
      /\ error (fst (fetchAQI net location st)) = None.
Proof.
  intros net location origin s0 data st Hvalue Hbounds Hfeed.
  destruct (Promise_all_resolves (race net) _ _ Hfeed) as [details [Hall Hlen]].
  pose proof (closestStations_nonempty origin s0 data) as Hne.
  destruct (@AggregatorFacts.processStationData_returns details
              (Selector.closestStations origin (s0 :: data))) as [c Hc].
  { destruct details; [| discriminate].
    destruct (Selector.closestStations origin (s0 :: data)); [congruence | discriminate]. }
  { rewrite Hlen. apply Nat.le_refl. }
  exists details, c. split; [exact Hall |]. split; [exact Hc |].
  unfold fetchAQI, try_finally, try_catch, bindM, await, setLoading, setError.
  cbn -[Selector.closestStations Promise_all Aggregator.processStationData].
  rewrite Hvalue.
  cbn -[Selector.closestStations Promise_all Aggregator.processStationData].
  rewrite Hbounds.
  cbn -[Selector.closestStations Promise_all Aggregator.processStationData].
  rewrite Hall.
  cbn -[Selector.closestStations Promise_all Aggregator.processStationData].
  rewrite Hc.
  cbn -[Selector.closestStations Promise_all Aggregator.processStationData].
  unfold fetchHistoricalData, await.
  destruct (hd_error (Selector.closestStations origin (s0 :: data))) as [h |].
  - destruct (history net (Selector.uid (Selector.station h))); cbn; auto.
  - cbn. auto.
Qed.

End DashboardFacts.

(** ** Distance calculator: mirror symmetry *)

Module DistanceGeometry.

Import Distance.

Local Open Scope R_scope.

(** The distance is unchanged when both points are mirrored at the
    equator, that is when both latitudes are negated. *)
Theorem calculateDistance_mirror :
  forall lat1 lon1 lat2 lon2 : R,
    calculateDistance (- lat1) lon1 (- lat2) lon2
    = calculateDistance lat1 lon1 lat2 lon2.
Proof.
  intros lat1 lon1 lat2 lon2. unfold calculateDistance. cbv zeta.
  replace ((- lat2 - - lat1) * PI / 180 / 2) with (- ((lat2 - lat1) * PI / 180 / 2))
    by field.
  replace (- lat1 * PI / 180) with (- (lat1 * PI / 180)) by field.
  replace (- lat2 * PI / 180) with (- (lat2 * PI / 180)) by field.
  rewrite sin_neg, !cos_neg.
  match goal with
  | |- _ * (_ * Math_atan2 (sqrt ?A) _) = _ * (_ * Math_atan2 (sqrt ?B) _) =>
      replace A with B by ring
  end.
  reflexivity.
Qed.

End DistanceGeometry.

(** ** Station selector: what is selected *)

Module SelectorOrder.

Import Selector.

Local Open Scope R_scope.

Lemma sorted_app_le {A} (key : A -> R) (l1 l2 : list A) :
  StronglySorted (key_le key) (l1 ++ l2) ->
  forall x y, In x l1 -> In y l2 -> key x <= key y.
Proof.
  induction l1 as [| a rest IH]; simpl; intros H x y Hx Hy; [contradiction |].
  inversion H as [| a' l' Hrest Hall]; subst.
  destruct Hx as [<- | Hx].
  - rewrite Forall_forall in Hall. apply Hall, in_or_app. right. exact Hy.
  - apply (IH Hrest x y Hx Hy).
Qed.

Lemma insert_below {A} (key : A -> R) (x : A) (l : list A) :
  Forall (fun y => key x <= key y) l -> insert (by_key key) x l = x :: l.
Proof.
  destruct l as [| y rest]; [reflexivity |].
  intros H. inversion H as [| y' l' Hxy _]; subst. simpl.
  destruct (Rlt_dec (by_key key y x) 0) as [Hlt | _]; [| reflexivity].
  unfold by_key in Hlt. lra.
Qed.

(** Sorting leaves a list that is already in order as it is. *)
Lemma sort_sorted_id {A} (key : A -> R) (l : list A) :
  StronglySorted (key_le key) l -> sort (by_key key) l = l.
Proof.
  induction 1 as [| x rest Hrest IH Hall]; [reflexivity |].
  simpl. rewrite IH. apply insert_below. exact Hall.
Qed.

(** The selection holds [min 3 n] of the [n] candidates, each unchanged
    but for its distance from the origin, and no candidate left out is
    closer than a selected one. *)
Theorem closestStations_closest :
  forall (origin : Geocoder.LatLng) (data : list StationSummary),
    let selected := closestStations origin data in
    length selected = Nat.min 3 (length data)
    /\ (forall r, In r selected ->
          In (station r) data
          /\ distance r = Distance.calculateDistance
                            (Geocoder.lat origin) (Geocoder.lng origin)
                            (lat (station r)) (lon (station r)))
    /\ exists rest,
         Permutation (selected ++ rest) (map (withDistance origin) data)
         /\ forall x y, In x selected -> In y rest -> distance x <= distance y.
Proof.
  intros origin data selected.
  pose proof (@SelectorFacts.sort_perm _ distance (map (withDistance origin) data)) as Hperm.
  pose proof (@SelectorFacts.sort_sorted _ distance (map (withDistance origin) data)) as Hsorted.
  unfold selected, closestStations, slice0, rankedStations.
  split; [| split].
  - rewrite length_firstn, (Permutation_length Hperm), length_map. reflexivity.
  - intros r Hr.
    assert (Hr' : In r (sort (by_key distance) (map (withDistance origin) data))).
    { rewrite <- (firstn_skipn 3). apply in_or_app. left. exact Hr. }
    apply (Permutation_in _ Hperm) in Hr'. rename Hr' into Hin. clear Hr.
    rename Hin into Hr.
    apply in_map_iff in Hr. destruct Hr as [s [<- Hs]].
    split; [exact Hs | reflexivity].
  - exists (skipn 3 (sort (by_key distance) (map (withDistance origin) data))).
    rewrite firstn_skipn. split; [exact Hperm |].
    intros x y Hx Hy.
    apply (@sorted_app_le _ distance
             (firstn 3 (sort (by_key distance) (map (withDistance origin) data)))
             (skipn 3 (sort (by_key distance) (map (withDistance origin) data)))).
    + rewrite firstn_skipn. exact Hsorted.
    + exact Hx.
    + exact Hy.
Qed.

Lemma closestStations_closest_witness :
  In (station (withDistance Dashboard.origin0 (Dashboard.station_at_origin 1)))
     [Dashboard.station_at_origin 1]
  /\ distance (withDistance Dashboard.origin0 (Dashboard.station_at_origin 1))
     = Distance.calculateDistance
         (Geocoder.lat Dashboard.origin0) (Geocoder.lng Dashboard.origin0)
         (lat (station (withDistance Dashboard.origin0 (Dashboard.station_at_origin 1))))
         (lon (station (withDistance Dashboard.origin0 (Dashboard.station_at_origin 1)))).
Proof.
  apply (proj1 (proj2 (closestStations_closest Dashboard.origin0
                         [Dashboard.station_at_origin 1]))).
  left. reflexivity.
Defined.

(** When the service lists the stations by non-decreasing distance already,
    the selection is the first three of its list, in its order. *)
Theorem closestStations_of_sorted :
  forall (origin : Geocoder.LatLng) (data : list StationSummary),
    StronglySorted distance_le (map (withDistance origin) data) ->
    closestStations origin data = map (withDistance origin) (firstn 3 data).
Proof.
  intros origin data H.
  unfold closestStations, slice0, rankedStations.
  rewrite (@sort_sorted_id _ distance _ H). apply firstn_map.
Qed.

Lemma closestStations_of_sorted_witness :
  closestStations Dashboard.origin0
    [Dashboard.station_at_origin 1; Dashboard.station_at_origin 2]
  = map (withDistance Dashboard.origin0)
        (firstn 3 [Dashboard.station_at_origin 1; Dashboard.station_at_origin 2]).
Proof.
  apply closestStations_of_sorted.
  apply SSorted_cons.
  - apply SSorted_cons; [apply SSorted_nil | apply Forall_nil].
  - apply Forall_cons; [| apply Forall_nil].
    unfold distance_le. simpl. apply Rle_refl.
Defined.

End SelectorOrder.

(** ** Reading aggregator: failure and station entries *)

Module AggregatorEdges.

Import Feed Aggregator.

Local Open Scope Q_scope.

Lemma stationEntries_throws (ss : list StationDetail)
    (orig : list Selector.RankedStation) (index : nat) :
  (index <= length orig)%nat ->
  (length orig < index + length ss)%nat ->
  stationEntries ss orig index = Throw TypeError.
Proof.
  revert index. induction ss as [| s rest IH]; intros index Hi H; simpl in *.
  - lia.
  - destruct (nth_error orig index) as [o |] eqn:E; [| reflexivity].
    assert (index < length orig)%nat by (apply nth_error_Some; congruence).
    rewrite (IH (S index)); [reflexivity | lia | lia].
Qed.

Lemma skipn_nth_error {A} (l : list A) (i : nat) (a : A) :
  nth_error l i = Some a -> skipn i l = a :: skipn (S i) l.
Proof.
  revert i. induction l as [| x rest IH]; intros [| i] H; simpl in *; try discriminate.
  - congruence.
  - apply IH. exact H.
Qed.

Lemma stationEntries_combine (ss : list StationDetail)
    (orig : list Selector.RankedStation) (index : nat) (es : list StationEntry) :
  stationEntries ss orig index = Ok es ->
  es = map entry_of (combine ss (skipn index orig)).
Proof.
  revert index es. induction ss as [| s rest IH]; intros index es; simpl.
  - intros H. injection H as <-. reflexivity.
  - destruct (nth_error orig index) as [o |] eqn:E; [| discriminate].
    destruct (stationEntries rest orig (S index)) as [es' |] eqn:E'; [| discriminate].
    simpl. intros H. injection H as <-.
    rewrite (skipn_nth_error _ _ E). cbn [combine map].
    f_equal. apply (IH (S index) es' E').
Qed.

(** [processStationData] throws a [TypeError], and returns no reading,
    when there is no station and when there are fewer ranked stations than
    stations. *)
Theorem processStationData_throws :
  forall (ss : list StationDetail) (orig : list Selector.RankedStation),
    ss = [] \/ (length orig < length ss)%nat ->
    processStationData ss orig = Throw TypeError.
Proof.
  intros ss orig [-> | Hshort]; [reflexivity |].
  unfold processStationData. cbv zeta.
  destruct ss as [| s0 rest]; [reflexivity |].
  unfold bind.
  rewrite stationEntries_throws; [reflexivity | apply Nat.le_0_l | exact Hshort].
Qed.

Lemma processStationData_throws_witness :
  processStationData [detail 40 None; detail 60 None] [ranked 1%R] = Throw TypeError
  /\ processStationData [] [ranked 1%R] = Throw TypeError.
Proof.
  split.
  - apply processStationData_throws. right. simpl. lia.
  - apply processStationData_throws. left. reflexivity.
Defined.

(** The composite reading carries the time of the first station, and one
    entry per station in the order of the stations, with that station's own
    name and AQI and the distance of the ranked station at the same
    position. *)
Theorem processStationData_time_and_stations :
  forall (ss : list StationDetail) (orig : list Selector.RankedStation)
         (c : CompositeReading),
    processStationData ss orig = Ok c ->
    (exists s0 rest, ss = s0 :: rest /\ time c = time_iso s0)
    /\ stations c = map entry_of (combine ss orig)
    /\ length (stations c) = length ss
    /\ map e_aqi (stations c) = map aqi ss.
Proof.
  intros ss orig c. unfold processStationData. cbv zeta.
  destruct ss as [| s0 rest]; [discriminate |].
  unfold bind.
  destruct (stationEntries (s0 :: rest) orig 0) as [es |] eqn:E; [| discriminate].
  assert (Hlen : (length (s0 :: rest) <= length orig)%nat).
  { destruct (Nat.le_gt_cases (length (s0 :: rest)) (length orig)) as [Hl | Hl];
      [exact Hl |].
    rewrite stationEntries_throws in E; [discriminate | apply Nat.le_0_l | exact Hl]. }
  intros H. injection H as <-. simpl time. simpl stations.
  pose proof (stationEntries_combine _ _ _ E) as Hes. simpl skipn in Hes.
  split; [exists s0, rest; split; reflexivity |].
  split; [exact Hes |].
  assert (Hl : length es = length (s0 :: rest)).
  { rewrite Hes, length_map, length_combine. apply Nat.min_l. exact Hlen. }
  split; [exact Hl |].
  rewrite Hes. clear - Hlen. revert Hlen. generalize (s0 :: rest) as l.
  intros l. revert orig. induction l as [| s l IH]; intros [| o orig] Hlen; simpl in *;
    try reflexivity; try lia.
  rewrite IH; [reflexivity | lia].
Qed.

Lemma processStationData_time_and_stations_witness :
  exists c,
    processStationData [detail 40 None; detail 60 None] [ranked 1%R; ranked 2%R] = Ok c
    /\ stations c = map entry_of (combine [detail 40 None; detail 60 None]
                                          [ranked 1%R; ranked 2%R])
    /\ map e_aqi (stations c) = [40; 60].
Proof.
  eexists. split; [reflexivity |].
  destruct (@processStationData_time_and_stations
              [detail 40 None; detail 60 None] [ranked 1%R; ranked 2%R] _ eq_refl)
    as [_ [Hs [_ Ha]]].
  split; [exact Hs | exact Ha].
Defined.

End AggregatorEdges.

(** ** Geocoder: the results of a search *)

Module GeocoderResults.

Import Geocoder.

Lemma firstn_In {A} (n : nat) (l : list A) (x : A) : In x (firstn n l) -> In x l.
Proof.
  intros H. rewrite <- (firstn_skipn n l). apply in_or_app. left. exact H.
Qed.

(** A search with matches returns the first five of them at most, in the
    order of the service, each enabled, labelled with its display name and
    carrying its parsed coordinates. *)
Theorem loadOptions_matches :
  forall (parseFloat : string -> R) (search : string -> result (payload Place))
         (q : string) (item : Place) (items : list Place),
    q <> EmptyString ->
    search q = Ok (Items (item :: items)) ->
    exists options,
      snd (loadOptions parseFloat search q) = Ok options
      /\ length options = Nat.min 5 (length (item :: items))
      /\ map label options = map display_name (firstn 5 (item :: items))
      /\ map value options
         = map (fun i => Some {| lat := parseFloat (item_lat i);
                                 lng := parseFloat (item_lon i) |})
               (firstn 5 (item :: items))
      /\ Forall (fun o => isDisabled o = false) options.
Proof.
  intros parseFloat search q item items Hq Hs.
  rewrite (GeocoderFacts.loadOptions_nonempty parseFloat search Hq).
  unfold loadOptions_try. rewrite Hs. cbn [bind snd].
  eexists. split; [reflexivity |].
  rewrite firstn_map.
  split; [rewrite length_map, length_firstn; reflexivity |].
  split; [rewrite map_map; reflexivity |].
  split; [rewrite map_map; reflexivity |].
  apply Forall_forall. intros o Ho.
  apply in_map_iff in Ho. destruct Ho as [i [<- _]]. reflexivity.
Qed.

Lemma loadOptions_matches_witness :
  exists options,
    snd (loadOptions (fun _ => 0%R)
           (fun _ => Ok (Items [ {| item_lat := "18.52"; item_lon := "73.85";
                                    display_name := "Pune" |} ]))
           "Pune") = Ok options
    /\ map label options = ["Pune"%string].
Proof.
  destruct (@loadOptions_matches (fun _ => 0%R)
              (fun _ => Ok (Items [ {| item_lat := "18.52"; item_lon := "73.85";
                                       display_name := "Pune" |} ]))
              "Pune" {| item_lat := "18.52"; item_lon := "73.85"; display_name := "Pune" |}
              [] ltac:(discriminate) eq_refl) as [options [H [_ [Hl _]]]].
  exists options. split; [exact H | exact Hl].
Defined.

(** A disabled placeholder never comes with other entries: a result that
    holds a disabled entry holds that entry alone, and it has no
    coordinates. *)
Theorem loadOptions_placeholder_alone :
  forall (parseFloat : string -> R) (search : string -> result (payload Place))
         (q : string) (options : list SelectOption) (o : SelectOption),
    snd (loadOptions parseFloat search q) = Ok options ->
    In o options -> isDisabled o = true ->
    options = [o] /\ value o = None.
Proof.
  intros parseFloat search q options o.
  unfold loadOptions. destruct (is_empty q); cbn [snd].
  - intros H. injection H as <-. contradiction.
  - unfold loadOptions_try.
    remember (@firstn SelectOption 5) as take eqn:Etake.
    destruct (search q) as [[| [| item items] |] | e]; cbv beta iota delta [bind];
      intros H; injection H as <-; intros Hin Hd; subst take.
    + destruct Hin as [<- | []]. split; reflexivity.
    + destruct Hin as [<- | []]. split; reflexivity.
    + apply firstn_In in Hin. destruct Hin as [<- | Hin]; [discriminate |].
      apply in_map_iff in Hin. destruct Hin as [i [<- _]]. discriminate.
    + destruct Hin as [<- | []]. split; reflexivity.
    + destruct Hin as [<- | []]. split; reflexivity.
Qed.

Lemma loadOptions_placeholder_alone_witness :
  [no_locations] = [no_locations] /\ value no_locations = None.
Proof.
  apply (@loadOptions_placeholder_alone (fun _ => 0%R) (fun _ => Ok (Items []))
           "Pune" [no_locations] no_locations).
  - reflexivity.
  - left. reflexivity.
  - reflexivity.
Defined.

End GeocoderResults.

(** ** Forecast formatter: when a chart is produced and what it holds *)

Module ForecastShape.

Import Feed Forecast.

Local Open Scope Q_scope.

Local Abbreviation pair_of := (fun d : Dataset => (label d, data d)).

Lemma push_dataset_series (name lab border background : string)
    (daily : list (string * list DayEntry)) (datasets : list Dataset) :
  exists new,
    push_dataset name lab border background daily datasets = Ok (datasets ++ new)
    /\ map pair_of new = series_of daily (name, lab).
Proof.
  unfold push_dataset, has_data, map_days, series_of. cbn [fst snd].
  destruct (property name daily) as [[| d days] |].
  - exists []. rewrite app_nil_r. split; reflexivity.
  - eexists. split; reflexivity.
  - exists []. rewrite app_nil_r. split; reflexivity.
Qed.

Lemma series_of_nil (nl : string * string) : series_of [] nl = [].
Proof. reflexivity. Qed.

Lemma series_of_nonempty (daily : list (string * list DayEntry))
    (nl : string * string) (p : string * list Q) :
  In p (series_of daily nl) -> snd p <> [].
Proof.
  unfold series_of. destruct (property (fst nl) daily) as [[| d days] |];
    simpl; try tauto.
  intros [<- | []]. discriminate.
Qed.

Lemma series_of_length (daily : list (string * list DayEntry)) (nl : string * string) :
  (length (series_of daily nl) <= 1)%nat.
Proof.
  unfold series_of. destruct (property (fst nl) daily) as [[| d days] |]; simpl; lia.
Qed.

Lemma all_series (daily : list (string * list DayEntry)) :
  flat_map (series_of daily) series_labels
  = series_of daily ("pm25", "PM2.5")%string
    ++ series_of daily ("pm10", "PM10")%string
    ++ series_of daily ("o3", "O3")%string.
Proof. unfold series_labels. cbn [flat_map]. rewrite app_nil_r. reflexivity. Qed.

(** What [prepareChartData] returns, by the series present. *)
Lemma prepareChartData_shape (fmt : string -> string) (payload : option StationDetail) :
  match daily_of payload with
  | None => prepareChartData fmt payload = Ok None
  | Some dl =>
      match flat_map (series_of dl) series_labels with
      | [] => prepareChartData fmt payload = Ok None
      | _ :: _ =>
          exists chart key0 days rest,
            prepareChartData fmt payload = Ok (Some chart)
            /\ map pair_of (datasets chart) = flat_map (series_of dl) series_labels
            /\ dl = (key0, days) :: rest
            /\ labels chart = map (fun e => fmt (day e)) days
      end
  end.
Proof.
  unfold daily_of, prepareChartData.
  destruct payload as [d |]; [| reflexivity].
  destruct (forecast d) as [f |]; [| reflexivity].
  destruct (daily f) as [dl |]; [| reflexivity].
  destruct (push_dataset_series "pm25" "PM2.5" "rgb(75, 192, 192)"
              "rgba(75, 192, 192, 0.2)" dl []) as [n1 [E1 H1]].
  destruct (push_dataset_series "pm10" "PM10" "rgb(255, 99, 132)"
              "rgba(255, 99, 132, 0.2)" dl ([] ++ n1)) as [n2 [E2 H2]].
  destruct (push_dataset_series "o3" "O3" "rgb(53, 162, 235)"
              "rgba(53, 162, 235, 0.2)" dl (([] ++ n1) ++ n2)) as [n3 [E3 H3]].
  unfold bind. rewrite E1, E2, E3.
  assert (HD : map pair_of ((([] ++ n1) ++ n2) ++ n3)
               = flat_map (series_of dl) series_labels).
  { rewrite all_series, !map_app, H1, H2, H3, app_nil_l, app_assoc. reflexivity. }
  destruct (flat_map (series_of dl) series_labels) as [| p ps] eqn:E.
  - apply map_eq_nil in HD. rewrite HD. reflexivity.
  - destruct ((([] ++ n1) ++ n2) ++ n3) as [| d0 ds]; [discriminate |].
    cbn [length Nat.eqb].
    destruct dl as [| [key0 days] rest].
    + rewrite all_series, !series_of_nil in E. discriminate.
    + cbn [map fst]. unfold map_days. cbn [property]. rewrite String.eqb_refl.
      eexists. exists key0, days, rest.
      split; [reflexivity |]. split; [exact HD |]. split; reflexivity.
Qed.

Lemma no_series_iff (dl : list (string * list DayEntry)) :
  flat_map (series_of dl) series_labels = [] <-> first_with_data dl = None.
Proof.
  rewrite all_series. unfold first_with_data, recognized, series_of, has_data.
  cbn [find fst snd].
  destruct (property "pm25" dl) as [[| d1 l1] |];
    destruct (property "pm10" dl) as [[| d2 l2] |];
    destruct (property "o3" dl) as [[| d3 l3] |];
    cbn [app]; split; intros H; try discriminate; reflexivity.
Qed.

(** [prepareChartData] returns [null] exactly when the payload, its
    forecast or its daily section is missing, or no recognized pollutant has
    a day of data. *)
Theorem prepareChartData_null_iff :
  forall (fmt : string -> string) (payload : option StationDetail),
    prepareChartData fmt payload = Ok None
    <-> match daily_of payload with
        | None => True
        | Some dl => first_with_data dl = None
        end.
Proof.
  intros fmt payload.
  pose proof (prepareChartData_shape fmt payload) as H.
  destruct (daily_of payload) as [dl |].
  - rewrite <- no_series_iff.
    destruct (flat_map (series_of dl) series_labels) as [| p ps].
    + rewrite H. tauto.
    + destruct H as [chart [k [days [rest [-> _]]]]].
      split; intros H; discriminate.
  - rewrite H. tauto.
Qed.

(** A chart holds between one and three datasets: one for each of pm25,
    pm10 and o3 that has data, in this order, labelled PM2.5, PM10 and O3,
    with the daily averages in the order of the payload; no dataset is
    empty and no other property of the payload gives one. *)
Theorem prepareChartData_datasets :
  forall (fmt : string -> string) (payload : option StationDetail) (chart : ChartData),
    prepareChartData fmt payload = Ok (Some chart) ->
    exists dl,
      daily_of payload = Some dl
      /\ map (fun d => (label d, data d)) (datasets chart)
         = flat_map (series_of dl) series_labels
      /\ (1 <= length (datasets chart) <= 3)%nat
      /\ Forall (fun d => data d <> []) (datasets chart).
Proof.
  intros fmt payload chart Hc.
  pose proof (prepareChartData_shape fmt payload) as H.
  destruct (daily_of payload) as [dl |]; [| congruence].
  exists dl. split; [reflexivity |].
  destruct (flat_map (series_of dl) series_labels) as [| p ps] eqn:E; [congruence |].
  destruct H as [chart' [k [days [rest [Hc' [Hd _]]]]]].
  assert (chart' = chart) by congruence. subst chart'.
  split; [exact Hd |]. split.
  - rewrite <- (length_map pair_of), Hd, <- E, all_series, !length_app.
    pose proof (series_of_length dl ("pm25", "PM2.5")%string).
    pose proof (series_of_length dl ("pm10", "PM10")%string).
    pose proof (series_of_length dl ("o3", "O3")%string).
    split; [| lia].
    rewrite <- !length_app, <- all_series, E. simpl. lia.
  - apply Forall_forall. intros d Hin.
    apply (in_map pair_of) in Hin. rewrite Hd, <- E in Hin.
    apply in_flat_map in Hin. destruct Hin as [nl [_ Hin]].
    apply (series_of_nonempty _ _ _ Hin).
Qed.

Lemma prepareChartData_datasets_witness :
  exists dl,
    daily_of (Some (with_daily uvi_first)) = Some dl
    /\ map (fun d => (label d, data d))
           [ {| label := "PM2.5"; data := [40; 42];
                borderColor := "rgb(75, 192, 192)";
                backgroundColor := "rgba(75, 192, 192, 0.2)";
                tension := 1 # 10 |} ]
       = flat_map (series_of dl) series_labels.
Proof.
  destruct (@prepareChartData_datasets (fun s => s) (Some (with_daily uvi_first))
              {| labels := ["2024-01-01"%string];
                 datasets := [ {| label := "PM2.5"; data := [40; 42];
                                  borderColor := "rgb(75, 192, 192)";
                                  backgroundColor := "rgba(75, 192, 192, 0.2)";
                                  tension := 1 # 10 |} ] |} eq_refl)
    as [dl [Hdl [Hd _]]].
  exists dl. split; [exact Hdl | exact Hd].
Defined.

Lemma prepareChartData_null_iff_witness :
  prepareChartData (fun s => s)
    (Some (with_daily [ ("uvi"%string, [ {| day := "2024-01-01"; avg := 3 |} ]) ]))
  = Ok None.
Proof.
  apply (proj2 (prepareChartData_null_iff (fun s => s)
          (Some (with_daily [ ("uvi"%string, [ {| day := "2024-01-01"; avg := 3 |} ]) ])))).
  reflexivity.
Defined.

Lemma first_series (dl : list (string * list DayEntry)) (k : string)
    (days : list DayEntry) :
  first_with_data dl = Some k -> property k dl = Some days ->
  exists lab ps,
    flat_map (series_of dl) series_labels = (lab, map avg days) :: ps.
Proof.
  rewrite all_series. unfold first_with_data, recognized, series_of, has_data.
  cbn [find fst snd].
  destruct (property "pm25" dl) as [[| d1 l1] |] eqn:E1;
    destruct (property "pm10" dl) as [[| d2 l2] |] eqn:E2;
    destruct (property "o3" dl) as [[| d3 l3] |] eqn:E3;
    cbn [app]; intros H Hp; try discriminate; injection H as <-;
    match goal with
    | E : property ?key dl = Some ?l, Hq : property ?key dl = Some days |- _ =>
        rewrite E in Hq; injection Hq as <-
    end;
    eexists; eexists; reflexivity.
Qed.

(** When the first property of [forecast.daily] is also the first
    recognized pollutant with data, the labels are its days and the first
    dataset is its series, of the same length. *)
Theorem labels_match_first_dataset :
  forall (fmt : string -> string) (payload : option StationDetail) (chart : ChartData)
         (key0 : string) (days : list DayEntry) (rest : list (string * list DayEntry)),
    prepareChartData fmt payload = Ok (Some chart) ->
    daily_of payload = Some ((key0, days) :: rest) ->
    first_with_data ((key0, days) :: rest) = Some key0 ->
    labels chart = map (fun e => fmt (day e)) days
    /\ exists ds dss,
         datasets chart = ds :: dss
         /\ data ds = map avg days
         /\ length (labels chart) = length (data ds).
Proof.
  intros fmt payload chart key0 days rest Hc Hdl Hfirst.
  pose proof (prepareChartData_shape fmt payload) as H.
  rewrite Hdl in H.
  destruct (@first_series ((key0, days) :: rest) key0 days Hfirst) as [lab [ps E]].
  { cbn [property]. rewrite String.eqb_refl. reflexivity. }
  rewrite E in H.
  destruct H as [chart' [k [days' [rest' [Hc' [Hd [Heq Hl]]]]]]].
  assert (chart' = chart) by congruence. subst chart'.
  injection Heq as <- <- <-.
  split; [exact Hl |].
  destruct (datasets chart) as [| ds dss]; [discriminate |].
  cbn [map] in Hd. injection Hd as _ Hdata _.
  exists ds, dss. split; [reflexivity |]. split; [exact Hdata |].
  rewrite Hl, Hdata, !length_map. reflexivity.
Qed.

Lemma labels_match_first_dataset_witness :
  exists chart,
    prepareChartData (fun s => s)
      (Some (with_daily [ ("pm25"%string, [ {| day := "2024-01-02"; avg := 40 |} ]);
                          ("uvi"%string, []) ])) = Ok (Some chart)
    /\ labels chart = ["2024-01-02"%string]
    /\ exists ds dss,
         datasets chart = ds :: dss
         /\ data ds = [40]
         /\ length (labels chart) = length (data ds).
Proof.
  eexists. split; [reflexivity |].
  apply (@labels_match_first_dataset (fun s => s)
           (Some (with_daily [ ("pm25"%string, [ {| day := "2024-01-02"; avg := 40 |} ]);
                               ("uvi"%string, []) ]))
           _ "pm25" [ {| day := "2024-01-02"; avg := 40 |} ] [ ("uvi"%string, []) ]);
    reflexivity.
Defined.

End ForecastShape.

(** ** The component: every path of [fetchAQI] *)

Module DashboardPaths.

Import Dashboard.

Local Open Scope R_scope.

Local Abbreviation bounds_of net origin :=
  (bounds net (Geocoder.lat origin - 15 / 100) (Geocoder.lng origin - 15 / 100)
              (Geocoder.lat origin + 15 / 100) (Geocoder.lng origin + 15 / 100)).

Local Abbreviation details_of net stations :=
  (Promise_all (race net)
     (map (fun s => feed net (Selector.uid (Selector.station s))) stations)).

Ltac run :=
  cbn -[Selector.closestStations Promise_all Aggregator.processStationData].

Ltac failed := left; repeat split; eexists; reflexivity.

(** The state and the result after [fetchAQI], path by path. *)
Lemma fetchAQI_outcome (net : Network) (location : Geocoder.SelectOption) (st : State) :
  exists a e h,
    fetchAQI net location st
    = ({| selectedLocation := selectedLocation st; aqi := a; loading := false;
          error := e; mapKey := mapKey st; historicalData := h |}, Ok tt)
    /\ ((a = aqi st /\ h = historicalData st /\ exists message, e = Some message)
        \/ (e = None
            /\ exists origin s0 data details c,
                 Geocoder.value location = Some origin
                 /\ bounds_of net origin = Ok (Items (s0 :: data))
                 /\ details_of net (Selector.closestStations origin (s0 :: data))
                    = Ok details
                 /\ Aggregator.processStationData details
                      (Selector.closestStations origin (s0 :: data)) = Ok c
                 /\ a = Some c
                 /\ (h = historicalData st \/ exists d, h = Some d))).
Proof.
  unfold fetchAQI, try_finally, try_catch, bindM, await, setLoading, setError,
    setAqi, ret, fetchHistoricalData, setHistoricalData.
  run.
  destruct (Geocoder.value location) as [origin |]; run.
  - destruct (bounds_of net origin) as [[| [| s0 data] |] | e0] eqn:Eb; run.
    + do 3 eexists. split; [reflexivity | failed].
    + do 3 eexists. split; [reflexivity | failed].
    + destruct (details_of net (Selector.closestStations origin (s0 :: data)))
        as [details | e1] eqn:Ed; run.
      * destruct (Aggregator.processStationData details
                    (Selector.closestStations origin (s0 :: data)))
          as [c | e2] eqn:Ec; run.
        -- destruct (hd_error (Selector.closestStations origin (s0 :: data)))
             as [first |]; run.
           ++ destruct (history net (Selector.uid (Selector.station first)))
                as [d | e3]; run.
              ** do 3 eexists. split; [reflexivity |]. right.
                 split; [reflexivity |].
                 exists origin, s0, data, details, c.
                 repeat split; try assumption. right. eexists. reflexivity.
              ** do 3 eexists. split; [reflexivity |]. right.
                 split; [reflexivity |].
                 exists origin, s0, data, details, c.
                 repeat split; try assumption. left. reflexivity.
           ++ do 3 eexists. split; [reflexivity |]. right.
              split; [reflexivity |].
              exists origin, s0, data, details, c.
              repeat split; try assumption. left. reflexivity.
        -- do 3 eexists. split; [reflexivity | failed].
      * do 3 eexists. split; [reflexivity | failed].
    + do 3 eexists. split; [reflexivity | failed].
    + do 3 eexists. split; [reflexivity | failed].
  - do 3 eexists. split; [reflexivity | failed].
Qed.

(** [fetchAQI] never rejects and always ends loading; it leaves the
    selected location and the map key alone; and it ends either with an error
    message and the reading and historical data it found, or with no error
    and a composite reading stored. *)
Theorem fetchAQI_settles :
  forall (net : Network) (location : Geocoder.SelectOption) (st : State),
    let st' := fst (fetchAQI net location st) in
    snd (fetchAQI net location st) = Ok tt
    /\ loading st' = false
    /\ selectedLocation st' = selectedLocation st
    /\ mapKey st' = mapKey st
    /\ (((exists message, error st' = Some message)
         /\ aqi st' = aqi st /\ historicalData st' = historicalData st)
        \/ (error st' = None /\ exists c, aqi st' = Some c)).
Proof.
  intros net location st.
  destruct (fetchAQI_outcome net location st) as [a [e [h [-> Hcases]]]].
  cbn. repeat split.
  destruct Hcases as [[-> [-> [m ->]]] | [-> [o [s0 [d [ds [c [_ [_ [_ [_ [-> _]]]]]]]]]]]].
  - left. repeat split. eexists. reflexivity.
  - right. split; [reflexivity | eexists; reflexivity].
Qed.

Ltac enter :=
  unfold fetchAQI, try_finally, try_catch, bindM, await, setLoading, setError,
    setAqi, ret, fetchHistoricalData, setHistoricalData;
  run.

(** With no station in range (an empty or missing list), [fetchAQI] reports
    that no station was found and keeps the reading and the historical data
    it found. *)
Theorem fetchAQI_no_station :
  forall (net : Network) (location : Geocoder.SelectOption)
         (origin : Geocoder.LatLng) (st : State),
    Geocoder.value location = Some origin ->
    bounds_of net origin = Ok Falsy \/ bounds_of net origin = Ok (Items []) ->
    let st' := fst (fetchAQI net location st) in
    error st' = Some "No AQI stations found near this location"%string
    /\ aqi st' = aqi st
    /\ historicalData st' = historicalData st
    /\ loading st' = false.
Proof.
  intros net location origin st Hv [Hb | Hb]; enter; rewrite Hv; run; rewrite Hb; run;
    repeat split.
Qed.

Lemma fetchAQI_no_station_witness :
  let st' := fst (fetchAQI no_station at_origin initial) in
  error st' = Some "No AQI stations found near this location"%string
  /\ aqi st' = aqi initial
  /\ historicalData st' = historicalData initial
  /\ loading st' = false.
Proof.
  apply (@fetchAQI_no_station no_station at_origin origin0 initial).
  - reflexivity.
  - right. reflexivity.
Defined.

(** When the bounds request is rejected, or the body it resolves to is not
    a list, the error shown is the message of the response if it has a
    non-empty one and the default text otherwise; the reading is kept. *)
Theorem fetchAQI_bounds_failure :
  forall (net : Network) (location : Geocoder.SelectOption)
         (origin : Geocoder.LatLng) (st : State),
    Geocoder.value location = Some origin ->
    let st' := fst (fetchAQI net location st) in
    (forall e, bounds_of net origin = Throw e ->
       error st'
       = Some match e with
              | AxiosError (Some m) =>
                  if Geocoder.is_empty m
                  then "Failed to fetch AQI data. Please try again later."%string
                  else m
              | _ => "Failed to fetch AQI data. Please try again later."%string
              end
       /\ aqi st' = aqi st)
    /\ (bounds_of net origin = Ok NotArray ->
        error st' = Some "Failed to fetch AQI data. Please try again later."%string
        /\ aqi st' = aqi st).
Proof.
  intros net location origin st Hv. split.
  - intros e Hb. enter. rewrite Hv. run. rewrite Hb. run.
    split; [| reflexivity].
    destruct e as [| [[| c m] |]]; reflexivity.
  - intros Hb. enter. rewrite Hv. run. rewrite Hb. run. split; reflexivity.
Qed.

Lemma fetchAQI_bounds_failure_witness :
  error (fst (fetchAQI bounds_rejected at_origin initial)) = Some "Invalid key"%string
  /\ aqi (fst (fetchAQI bounds_rejected at_origin initial)) = aqi initial.
Proof.
  apply (proj1 (@fetchAQI_bounds_failure bounds_rejected at_origin origin0 initial
                  eq_refl) (AxiosError (Some "Invalid key"%string))).
  reflexivity.
Defined.

Lemma Promise_all_in_order {A B} (first : exn -> list exn -> exn)
    (f : A -> result B) (l : list A) :
  (forall x, In x l -> exists b, f x = Ok b) ->
  exists bs, Promise_all first (map f l) = Ok bs
             /\ Forall2 (fun x b => f x = Ok b) l bs.
Proof.
  intros H. unfold Promise_all.
  assert (Hl : rejections (map f l) = []
               /\ Forall2 (fun x b => f x = Ok b) l (fulfilled (map f l))).
  { induction l as [| y rest IH]; simpl; [split; [reflexivity | constructor] |].
    destruct (H y (or_introl eq_refl)) as [b Hb].
    destruct IH as [IH1 IH2]; [intros x Hx; apply H; right; exact Hx |].
    rewrite Hb. simpl. split; [exact IH1 | constructor; assumption]. }
  destruct Hl as [-> HF]. eexists. split; [reflexivity | exact HF].
Qed.

(** When the detail request of every selected station resolves, [fetchAQI]
    stores the composite reading of these details, taken in ranked order,
    and clears the error, whatever becomes of the historical request: its
    payload is stored when it resolves, and its failure changes nothing. *)
Theorem fetchAQI_stores_composite :
  forall (net : Network) (location : Geocoder.SelectOption)
         (origin : Geocoder.LatLng) (s0 : Selector.StationSummary)
         (data : list Selector.StationSummary) (st : State),
    Geocoder.value location = Some origin ->
    bounds_of net origin = Ok (Items (s0 :: data)) ->
    (forall s, In s (Selector.closestStations origin (s0 :: data)) ->
       exists d, feed net (Selector.uid (Selector.station s)) = Ok d) ->
    let stations := Selector.closestStations origin (s0 :: data) in
    let st' := fst (fetchAQI net location st) in
    exists details c first,
      Forall2 (fun s d => feed net (Selector.uid (Selector.station s)) = Ok d)
              stations details
      /\ Aggregator.processStationData details stations = Ok c
      /\ hd_error stations = Some first
      /\ aqi st' = Some c
      /\ error st' = None
      /\ loading st' = false
      /\ historicalData st'
         = match history net (Selector.uid (Selector.station first)) with
           | Ok d => Some d
           | Throw _ => historicalData st
           end.
Proof.
  intros net location origin s0 data st Hv Hb Hfeed stations st'.
  destruct (Promise_all_in_order (race net) _ _ Hfeed) as [details [Hall HF]].
  pose proof (DashboardFacts.closestStations_nonempty origin s0 data) as Hne.
  fold stations in Hne, Hall, HF.
  destruct (@AggregatorFacts.processStationData_returns details stations) as [c Hc].
  { destruct HF; [congruence | discriminate]. }
  { rewrite (Forall2_length HF). apply Nat.le_refl. }
  destruct stations as [| first others] eqn:Es; [congruence |].
  exists details, c, first.
  split; [exact HF |]. split; [exact Hc |]. split; [reflexivity |].
  unfold st'. enter. rewrite Hv. run. rewrite Hb. run.
  fold stations. rewrite Es, Hall. run. rewrite Hc. run.
  destruct (history net (Selector.uid (Selector.station first))); run; repeat split.
Qed.

Lemma fetchAQI_stores_composite_witness :
  let stations :=
    Selector.closestStations origin0 [station_at_origin 1; station_at_origin 2] in
  let st' := fst (fetchAQI history_fails at_origin initial) in
  exists details c first,
    Forall2 (fun s d => feed history_fails (Selector.uid (Selector.station s)) = Ok d)
            stations details
    /\ Aggregator.processStationData details stations = Ok c
    /\ hd_error stations = Some first
    /\ aqi st' = Some c
    /\ error st' = None
    /\ loading st' = false
    /\ historicalData st'
       = match history history_fails (Selector.uid (Selector.station first)) with
         | Ok d => Some d
         | Throw _ => historicalData initial
         end.
Proof.
  apply (@fetchAQI_stores_composite history_fails at_origin origin0
           (station_at_origin 1) [station_at_origin 2] initial).
  - reflexivity.
  - reflexivity.
  - intros s _. eexists. reflexivity.
Defined.

(** A change of the select box to another location stores it and
    increments the map key, whatever the requests do; with no location
    nothing is fetched and the rest of the state is kept. *)
Theorem changeLocation_state :
  forall (net : Network) (st : State),
    (forall location,
        let st' := fst (changeLocation net (Some location) st) in
        selectedLocation st' = Some location
        /\ mapKey st' = S (mapKey st)
        /\ loading st' = false
        /\ snd (changeLocation net (Some location) st) = Ok tt)
    /\ changeLocation net None st
       = ({| selectedLocation := None; aqi := aqi st; loading := loading st;
             error := error st; mapKey := S (mapKey st);
             historicalData := historicalData st |}, Ok tt).
Proof.
  intros net st. split.
  - intros location.
    unfold changeLocation, handleLocationChange, locationEffect, bindM,
      setSelectedLocation, setMapKey.
    cbn -[fetchAQI].
    match goal with
    | |- context [fetchAQI net location ?s] =>
        destruct (fetchAQI_outcome net location s) as [a [e [h [-> _]]]]
    end.
    cbn. rewrite Nat.add_1_r. repeat split.
  - unfold changeLocation, handleLocationChange, locationEffect, bindM,
      setSelectedLocation, setMapKey.
    cbn. rewrite Nat.add_1_r. reflexivity.
Qed.

End DashboardPaths.

(** ** AQI classification *)

Module ClassificationFacts.

Import Classification.

Local Open Scope Q_scope.

Lemma Qle_bool_false (x y : Q) : Qle_bool x y = false <-> y < x.
Proof.
  split; intros H.
  - apply Qnot_le_lt. intros Hle. apply Qle_bool_iff in Hle. congruence.
  - destruct (Qle_bool x y) eqn:E; [| reflexivity].
    apply Qle_bool_iff in E. Lqa.lra.
Qed.

Ltac bands a :=
  destruct (Qle_bool a 50) eqn:?H50;
  [| destruct (Qle_bool a 100) eqn:?H100;
     [| destruct (Qle_bool a 150) eqn:?H150;
        [| destruct (Qle_bool a 200) eqn:?H200;
           [| destruct (Qle_bool a 300) eqn:?H300]]]].

Ltac to_order :=
  repeat match goal with
         | H : Qle_bool _ _ = true |- _ => apply Qle_bool_iff in H
         | H : Qle_bool _ _ = false |- _ => apply Qle_bool_false in H
         end.



(** The colour and the health recommendation always belong to the same
    band: two AQI values have the same colour exactly when they have the
    same recommendation. *)
Theorem color_matches_recommendation :
  forall a b : Q,
    getAQIColor a = getAQIColor b
    <-> getHealthRecommendations a = getHealthRecommendations b.
Proof.
  intros a b. unfold getAQIColor, getHealthRecommendations.
  bands a; bands b; split; intros H; try reflexivity; discriminate H.
Qed.

Lemma color_matches_recommendation_witness :
  getHealthRecommendations 10 = getHealthRecommendations 50.
Proof.
  apply (proj1 (color_matches_recommendation 10 50)). reflexivity.
Defined.

End ClassificationFacts.

(** ** The component: the stations of the stored reading *)

Module DashboardStations.

Import Dashboard.

Local Open Scope R_scope.

Lemma fulfilled_length {A B} (f : A -> result B) (l : list A) :
  rejections (map f l) = [] -> length (fulfilled (map f l)) = length l.
Proof.
  induction l as [| x rest IH]; simpl; [reflexivity |].
  destruct (f x); [| discriminate].
  intros H. simpl. rewrite (IH H). reflexivity.
Qed.

Lemma Promise_all_length {A B} (first : exn -> list exn -> exn)
    (f : A -> result B) (l : list A) (bs : list B) :
  Promise_all first (map f l) = Ok bs -> length bs = length l.
Proof.
  unfold Promise_all.
  destruct (rejections (map f l)) as [| e es] eqn:E; [| discriminate].
  intros H. injection H as <-. apply fulfilled_length, E.
Qed.

Lemma map_snd_combine {A B} (l1 : list A) (l2 : list B) :
  length l1 = length l2 -> map snd (combine l1 l2) = l2.
Proof.
  revert l2. induction l1 as [| a l1 IH]; intros [| b l2] H; simpl in *;
    try reflexivity; try discriminate.
  rewrite IH; [reflexivity | congruence].
Qed.

Lemma processStationData_distances (ss : list Feed.StationDetail)
    (orig : list Selector.RankedStation) (c : Aggregator.CompositeReading) :
  length ss = length orig ->
  Aggregator.processStationData ss orig = Ok c ->
  map Aggregator.e_distance (Aggregator.stations c) = map Selector.distance orig.
Proof.
  intros Hlen. unfold Aggregator.processStationData. cbv zeta.
  destruct ss as [| s0 rest]; [discriminate |].
  unfold bind.
  destruct (Aggregator.stationEntries (s0 :: rest) orig 0) as [es |] eqn:E;
    [| discriminate].
  intros H. injection H as <-. cbn [Aggregator.stations].
  rewrite (AggregatorEdges.stationEntries_combine _ _ _ E).
  cbn [skipn]. rewrite map_map.
  rewrite <- (map_snd_combine (s0 :: rest) orig Hlen) at 2.
  rewrite map_map. reflexivity.
Qed.

Lemma sorted_map_distance (l : list Selector.RankedStation) :
  StronglySorted Selector.distance_le l ->
  StronglySorted Rle (map Selector.distance l).
Proof.
  induction 1 as [| x rest Hrest IH Hall]; simpl; constructor; [exact IH |].
  apply Forall_map. exact Hall.
Qed.

(** When every detail request resolves, the reading stored by [fetchAQI]
    lists at most three stations, one per selected station with its
    distance, in non-decreasing distance. *)
Theorem fetchAQI_contributing_stations :
  forall (net : Network) (location : Geocoder.SelectOption)
         (origin : Geocoder.LatLng) (s0 : Selector.StationSummary)
         (data : list Selector.StationSummary) (st : State),
    Geocoder.value location = Some origin ->
    bounds net (Geocoder.lat origin - 15 / 100) (Geocoder.lng origin - 15 / 100)
               (Geocoder.lat origin + 15 / 100) (Geocoder.lng origin + 15 / 100)
    = Ok (Items (s0 :: data)) ->
    (forall s, In s (Selector.closestStations origin (s0 :: data)) ->
       exists d, feed net (Selector.uid (Selector.station s)) = Ok d) ->
    exists c,
      aqi (fst (fetchAQI net location st)) = Some c
      /\ map Aggregator.e_distance (Aggregator.stations c)
         = map Selector.distance (Selector.closestStations origin (s0 :: data))
      /\ (1 <= length (Aggregator.stations c) <= 3)%nat
      /\ StronglySorted Rle (map Aggregator.e_distance (Aggregator.stations c)).
Proof.
  intros net location origin s0 data st Hv Hb Hfeed.
  destruct (DashboardFacts.fetchAQI_aggregates_all net location st Hv Hb Hfeed)
    as [details [c [Hall [Hc [Ha _]]]]].
  pose proof (Promise_all_length _ _ _ Hall) as Hlen.
  pose proof (processStationData_distances _ _ Hlen Hc) as Hd.
  exists c. split; [exact Ha |]. split; [exact Hd |].
  split.
  - rewrite <- (length_map Aggregator.e_distance), Hd, length_map.
    pose proof (DashboardFacts.closestStations_nonempty origin s0 data) as Hne.
    split.
    + destruct (Selector.closestStations origin (s0 :: data)); [congruence | simpl; lia].
    + unfold Selector.closestStations, Selector.slice0. apply firstn_le_length.
  - rewrite Hd. apply sorted_map_distance.
    unfold Selector.closestStations, Selector.slice0, Selector.rankedStations.
    apply (@SelectorFacts.firstn_sorted _ Selector.distance),
          (@SelectorFacts.sort_sorted _ Selector.distance).
Qed.

Lemma fetchAQI_contributing_stations_witness :
  exists c,
    aqi (fst (fetchAQI history_fails at_origin initial)) = Some c
    /\ map Aggregator.e_distance (Aggregator.stations c)
       = map Selector.distance
           (Selector.closestStations origin0 [station_at_origin 1; station_at_origin 2])
    /\ (1 <= length (Aggregator.stations c) <= 3)%nat
    /\ StronglySorted Rle (map Aggregator.e_distance (Aggregator.stations c)).
Proof.
  apply (@fetchAQI_contributing_stations history_fails at_origin origin0
           (station_at_origin 1) [station_at_origin 2] initial).
  - reflexivity.
  - reflexivity.
  - intros s _. eexists. reflexivity.
Defined.

End DashboardStations.

(** ** Forecast formatter: the labels of a chart *)

Module ForecastLabels.

Import Feed Forecast.

Lemma labels_from_first_key_witness :
  exists f key0 days rest,
    forecast (with_daily uvi_first) = Some f
    /\ daily f = Some ((key0, days) :: rest)
    /\ [ "2024-01-01"%string ] = map (fun e => day e) days.
Proof.
  apply (@ForecastFacts.labels_from_first_key (fun s => s) (with_daily uvi_first)
           {| labels := ["2024-01-01"%string];
              datasets := [ {| label := "PM2.5"; data := [40%Q; 42%Q];
                               borderColor := "rgb(75, 192, 192)";
                               backgroundColor := "rgba(75, 192, 192, 0.2)";
                               tension := (1 # 10)%Q |} ] |}).
  reflexivity.
Defined.

End ForecastLabels.

(** ** Reading aggregator, over doubles *)

Module Aggregator64Facts.

Import Feed Binary64 Aggregator64.

Local Open Scope Q_scope.

Lemma normalized_value (s : bool) (p : positive) :
  is_value (normalized s p) (inject_Z (signed s p)).
Proof.
  unfold normalized, is_value.
  destruct (53 - Zpos (digits2_pos p))%Z as [| k | k]; cbn [value pow2].
  - ring.
  - destruct s; unfold Qeq; cbn; rewrite ?Pos.mul_1_r; reflexivity.
  - ring.
Qed.

Lemma of_integer_value (s : bool) (z : Z) : is_value (of_integer s z) (inject_Z z).
Proof.
  destruct z as [| p | p]; cbn [of_integer].
  - unfold is_value. cbn. reflexivity.
  - apply (normalized_value false p).
  - apply (normalized_value true p).
Qed.

Lemma pow2_nonneg (e : Z) : (0 <= e)%Z -> pow2 e == inject_Z (2 ^ e).
Proof.
  destruct e as [| p | p]; intros H; cbn [pow2].
  - reflexivity.
  - rewrite <- Pos2Z.inj_pow. reflexivity.
  - pose proof (Pos2Z.neg_is_neg p). lia.
Qed.

(** [Math.round] of a finite double is the integer nearest to it; of an
    infinity or NaN, that value itself. *)
Lemma Math_round_rounded (x : double) : rounded x (Math_round x).
Proof.
  split; [reflexivity |].
  destruct x as [s | s | | s m e]; cbn [value Math_round]; try reflexivity.
  - exists 0%Z. split.
    + unfold is_value. cbn. reflexivity.
    + unfold Aggregator.nearest_integer. change (inject_Z 0) with 0.
      split; Lqa.lra.
  - destruct (0 <=? e)%Z eqn:E.
    + apply Z.leb_le in E.
      exists (signed s m * 2 ^ e)%Z.
      assert (Hq : inject_Z (signed s m) * pow2 e == inject_Z (signed s m * 2 ^ e)).
      { rewrite (pow2_nonneg E), inject_Z_mult. reflexivity. }
      split.
      * unfold is_value. cbn [value]. exact Hq.
      * unfold Aggregator.nearest_integer. rewrite Hq. split; Lqa.lra.
    + exists (Qfloor (inject_Z (signed s m) * pow2 e + (1 # 2))).
      split; [apply of_integer_value | apply AggregatorFacts.Math_round_nearest].
Qed.

Lemma weightedAverage_valid_double (values : list (option double)) :
  weightedAverage values =
  match validValues values with
  | [] => None
  | xs => Some (Math_round (div (fold_left add xs zero) (of_nat (length xs))))
  end.
Proof.
  unfold weightedAverage.
  destruct (validValues values) as [| x rest]; reflexivity.
Qed.

Lemma validValues_reported_double (p : Aggregator.Pollutant) (ss : list StationDetail) :
  validValues (map (fun s => opt_v (Aggregator.station_reading p s)) ss)
  = map number (Aggregator.reported p ss).
Proof.
  induction ss as [| s rest IH]; simpl; [reflexivity |].
  destruct (Aggregator.station_reading p s); simpl; rewrite IH; reflexivity.
Qed.

Lemma validValues_all_double (ss : list StationDetail) :
  validValues (map (fun s => Some (aqi_of s)) ss) = map number (map aqi ss).
Proof.
  induction ss as [| s rest IH]; simpl; [reflexivity |].
  rewrite IH. reflexivity.
Qed.

Lemma weightedAverage_rounded (values : list (option double)) (xs : list Q) :
  validValues values = map number xs ->
  rounded_double_mean_of xs (weightedAverage values).
Proof.
  intros H. rewrite weightedAverage_valid_double, H. unfold rounded_double_mean_of.
  destruct xs as [| x rest]; [reflexivity |].
  eexists. split.
  - cbn [map]. reflexivity.
  - unfold double_mean. cbn [map length]. rewrite length_map.
    apply Math_round_rounded.
Qed.

Lemma stationEntries_returns_double (ss : list StationDetail)
    (orig : list Selector.RankedStation) (index : nat) :
  (index + length ss <= length orig)%nat ->
  exists es, stationEntries ss orig index = Ok es.
Proof.
  revert index. induction ss as [| s rest IH]; intros index H; simpl in *.
  - eexists. reflexivity.
  - destruct (nth_error orig index) as [o |] eqn:E.
    + destruct (IH (S index)) as [es Hes]; [lia |].
      rewrite Hes. simpl. eexists. reflexivity.
    + apply nth_error_None in E. lia.
Qed.

Lemma processStationData_returns_double (ss : list StationDetail)
    (orig : list Selector.RankedStation) :
  ss <> [] -> (length ss <= length orig)%nat ->
  exists c, processStationData ss orig = Ok c.
Proof.
  intros Hne Hlen. unfold processStationData.
  destruct ss as [| s0 rest]; [congruence |].
  destruct (stationEntries_returns_double (s0 :: rest) orig 0) as [es Hes]; [simpl in *; lia |].
  cbv zeta. unfold bind. rewrite Hes. eexists. reflexivity.
Qed.

Lemma processStationData_fields_double (ss : list StationDetail)
    (orig : list Selector.RankedStation) (c : CompositeReading) :
  processStationData ss orig = Ok c ->
  c_aqi c = weightedAverage (map (fun s => Some (aqi_of s)) ss)
  /\ forall p, composite_pollutant p c
               = weightedAverage (map (fun s => opt_v (Aggregator.station_reading p s)) ss).
Proof.
  unfold processStationData. cbv zeta.
  destruct ss as [| s0 rest]; [discriminate |].
  unfold bind.
  destruct (stationEntries (s0 :: rest) orig 0) as [es | e]; [| discriminate].
  intros H. injection H as <-.
  split; [reflexivity |].
  intros []; reflexivity.
Qed.

(** C1 (amended): for every pollutant code the aggregated value is absent
    when no selected station reports the pollutant, and otherwise is
    [Math.round] of the mean, as doubles compute it in station order, of the
    values of exactly the stations that report it: an integer, the nearest to
    that computed mean, whenever it is finite. *)
Theorem pollutant_rounded_double_mean :
  forall (ss : list StationDetail) (orig : list Selector.RankedStation),
    ss <> [] -> (length ss <= length orig)%nat ->
    exists c,
      processStationData ss orig = Ok c
      /\ forall p, rounded_double_mean_of (Aggregator.reported p ss)
                                          (composite_pollutant p c).
Proof.
  intros ss orig Hne Hlen.
  destruct (processStationData_returns_double orig Hne Hlen) as [c Hc].
  exists c. split; [exact Hc |].
  intros p. destruct (processStationData_fields_double _ _ Hc) as [_ Hp].
  rewrite Hp. apply weightedAverage_rounded, validValues_reported_double.
Qed.

Lemma pollutant_rounded_double_mean_witness :
  exists c,
    processStationData
      [Aggregator.detail 40 (Some (14 # 10)); Aggregator.detail 60 None;
       Aggregator.detail 61 (Some (28 # 10))]
      [Aggregator.ranked 1%R; Aggregator.ranked 2%R; Aggregator.ranked 3%R] = Ok c
    /\ forall p,
         rounded_double_mean_of
           (Aggregator.reported p
              [Aggregator.detail 40 (Some (14 # 10)); Aggregator.detail 60 None;
               Aggregator.detail 61 (Some (28 # 10))])
           (composite_pollutant p c).
Proof.
  apply pollutant_rounded_double_mean; [discriminate | simpl; lia].
Defined.

(** C10, as stated, fails: two stations with AQI 1e308 give the composite
    AQI [Infinity], which is no integer. *)
Lemma overflow_not_integer :
  ~ (forall (ss : list StationDetail) (orig : list Selector.RankedStation)
            (c : CompositeReading) (r : double),
        processStationData ss orig = Ok c -> c_aqi c = Some r -> is_integer r).
Proof.
  intros H.
  destruct (@processStationData_returns_double [overflowing; overflowing]
              [Aggregator.ranked 1%R; Aggregator.ranked 2%R]) as [c Hc];
    [discriminate | simpl; lia |].
  destruct (processStationData_fields_double _ _ Hc) as [Ha _].
  assert (Hv : weightedAverage (map (fun s => Some (aqi_of s)) [overflowing; overflowing])
               = Some (S754_infinity false)) by (vm_compute; reflexivity).
  rewrite Hv in Ha.
  destruct (H _ _ c _ Hc Ha) as [z Hz]. exact Hz.
Qed.

(** C10 (amended): every number among the composite AQI and the
    per-pollutant averages of a composite reading is [Math.round] of the
    mean as doubles compute it: when that computed mean is finite, an
    integer, the one nearest to it; when the sum has overflowed, that
    infinity or NaN. *)
Theorem aggregates_are_rounded_doubles :
  forall (ss : list StationDetail) (orig : list Selector.RankedStation)
         (c : CompositeReading),
    processStationData ss orig = Ok c ->
    (forall r, c_aqi c = Some r ->
       rounded (double_mean (map aqi ss)) r
       /\ (forall q, value (double_mean (map aqi ss)) = Some q -> is_integer r))
    /\ (forall p r, composite_pollutant p c = Some r ->
          rounded (double_mean (Aggregator.reported p ss)) r
          /\ (forall q, value (double_mean (Aggregator.reported p ss)) = Some q ->
                is_integer r)).
Proof.
  intros ss orig c Hc.
  destruct (processStationData_fields_double _ _ Hc) as [Ha Hp].
  assert (Hint : forall x r, rounded x r -> forall q, value x = Some q -> is_integer r).
  { intros x r [_ Hr] q Hq. rewrite Hq in Hr. destruct Hr as [z [Hz _]].
    exists z. exact Hz. }
  assert (Hsome : forall xs r, rounded_double_mean_of xs (Some r) ->
                               rounded (double_mean xs) r).
  { intros xs r. destruct xs as [| x rest]; cbn; [discriminate |].
    intros [d [Hd Hr]]. injection Hd as ->. exact Hr. }
  split.
  - intros r Hr.
    assert (H : rounded (double_mean (map aqi ss)) r).
    { apply Hsome. rewrite <- Hr, Ha.
      apply weightedAverage_rounded, validValues_all_double. }
    split; [exact H | apply (Hint _ _ H)].
  - intros p r Hr.
    assert (H : rounded (double_mean (Aggregator.reported p ss)) r).
    { apply Hsome. rewrite <- Hr, Hp.
      apply weightedAverage_rounded, validValues_reported_double. }
    split; [exact H | apply (Hint _ _ H)].
Qed.

Lemma aggregates_are_rounded_doubles_witness :
  exists c,
    processStationData
      [Aggregator.detail 40 (Some (14 # 10)); Aggregator.detail 61 (Some (28 # 10))]
      [Aggregator.ranked 1%R; Aggregator.ranked 2%R] = Ok c
    /\ (forall r, c_aqi c = Some r ->
          rounded (double_mean
                     (map aqi [Aggregator.detail 40 (Some (14 # 10));
                               Aggregator.detail 61 (Some (28 # 10))])) r
          /\ (forall q,
                value (double_mean
                         (map aqi [Aggregator.detail 40 (Some (14 # 10));
                                   Aggregator.detail 61 (Some (28 # 10))])) = Some q ->
                is_integer r)).
Proof.
  eexists. split; [reflexivity |].
  apply (proj1 (@aggregates_are_rounded_doubles
                  [Aggregator.detail 40 (Some (14 # 10));
                   Aggregator.detail 61 (Some (28 # 10))]
                  [Aggregator.ranked 1%R; Aggregator.ranked 2%R] _ eq_refl)).
Defined.

(** The averages depend on the order of the values: 1.4, 2.8, 3.3 give 2,
    and 3.3, 2.8, 1.4 give 3. *)
Lemma average_depends_on_order :
  weightedAverage [Some (number (14 # 10)); Some (number (28 # 10)); Some (number (33 # 10))]
  = Some (number 2)
  /\ weightedAverage [Some (number (33 # 10)); Some (number (28 # 10)); Some (number (14 # 10))]
     = Some (number 3).
Proof. split; vm_compute; reflexivity. Qed.

End Aggregator64Facts.
